(** * robotoff.products: product dataset access layer

    A shallow embedding of [robotoff/products.py]: the raw JSON records, the
    [Product] projection, the lazy [ProductStream] filters, the two product
    stores and the dataset refresh cycle, followed by the properties of the
    specification that concern them. *)

From Stdlib Require Import QArith Qcanon.
From stdpp Require Import base numbers strings list gmap fin_maps countable.

Local Open Scope nat_scope.
Set Warnings "-register-all".

(** ** Python exceptions and fallible results *)

(** The exception classes the module can meet.  [DecodeError] stands for
    whatever a reader raises on a line that does not decompress or parse. *)
Inductive exn : Set :=
  | TypeError
  | ValueError
  | AttributeError
  | OSError
  | DecodeError.

Inductive except (A : Type) : Type :=
  | Ok (a : A)
  | Raise (e : exn).
Arguments Ok {A} a.
Arguments Raise {A} e.

Global Instance except_ret : MRet except := fun _ a => Ok a.
Global Instance except_bind : MBind except := fun _ _ f m =>
  match m with
  | Ok a => f a
  | Raise e => Raise e
  end.
Global Instance except_fmap : FMap except := fun _ _ f m =>
  match m with
  | Ok a => Ok (f a)
  | Raise e => Raise e
  end.

Definition is_Ok {A} (m : except A) : Prop := ∃ a, m = Ok a.

(** ** JSON values as Python objects

    Numbers are the finite ones: a Python [int] or a finite [float] is the
    rational it denotes, which is what [==], [<] and hashing see.  A string is
    the sequence of its characters, and a character is a code point below
    256; a string with any other character has no counterpart here. *)
Inductive value : Type :=
  | VNone
  | VBool (b : bool)
  | VNum (q : Qc)
  | VStr (s : string)
  | VList (l : list value)
  | VDict (d : list (string * value)).

(** [JSONType]: a dict with string keys, in insertion order. *)
Abbreviation JSONType := (list (string * value)).

Definition VInt (z : Z) : value := VNum (Qc_of_Z z).

(** *** dict operations *)

(** [d.get(k)] as an option, [k in d], [d.keys()], [d[k] = v]. *)
Fixpoint dict_get (k : string) (d : JSONType) : option value :=
  match d with
  | [] => None
  | (k', v) :: d' => if String.eqb k k' then Some v else dict_get k d'
  end.

Definition dict_contains (k : string) (d : JSONType) : bool :=
  match dict_get k d with
  | Some _ => true
  | None => false
  end.

Definition dict_keys (d : JSONType) : list string := d.*1.

Fixpoint dict_set (k : string) (v : value) (d : JSONType) : JSONType :=
  match d with
  | [] => [(k, v)]
  | (k', v') :: d' =>
      if String.eqb k k' then (k, v) :: d' else (k', v') :: dict_set k v d'
  end.

(** [d.get(k)] with Python's default [None], and [d.get(k, default)]. *)
Definition get (d : JSONType) (k : string) : value :=
  default VNone (dict_get k d).

Definition get_default (d : JSONType) (k : string) (dflt : value) : value :=
  default dflt (dict_get k d).

(** *** truth value, [or] *)

Definition py_bool (v : value) : bool :=
  match v with
  | VNone => false
  | VBool b => b
  | VNum q => negb (bool_decide (q = 0%Qc))
  | VStr s => negb (String.eqb s EmptyString)
  | VList l => match l with [] => false | _ => true end
  | VDict d => match d with [] => false | _ => true end
  end.

Definition py_or (v dflt : value) : value :=
  if py_bool v then v else dflt.

(** *** [str.isdigit], [str.__contains__]

    [str.isdigit]: the string is not empty and each of its characters is a
    digit for Unicode.  Below 256 these are the decimal digits 0 to 9 (48 to
    57) and the superscripts two, three and one (178, 179, 185), which are
    digits without being decimal digits; the digits of the other scripts lie
    above 255. *)

Definition is_decimal (c : Ascii.ascii) : bool :=
  (48 <=? Ascii.nat_of_ascii c) && (Ascii.nat_of_ascii c <=? 57).

Definition char_isdigit (c : Ascii.ascii) : bool :=
  is_decimal c ||
  bool_decide (Ascii.nat_of_ascii c ∈ [178; 179; 185]).

Fixpoint all_digits (s : string) : bool :=
  match s with
  | EmptyString => true
  | String c s' => char_isdigit c && all_digits s'
  end.

Definition isdigit (s : string) : bool :=
  negb (String.eqb s EmptyString) && all_digits s.

Fixpoint is_substring (s t : string) : bool :=
  String.prefix s t ||
  match t with
  | EmptyString => false
  | String _ t' => is_substring s t'
  end.

(** *** rich comparisons *)

Definition num_of (v : value) : option Qc :=
  match v with
  | VBool b => Some (if b then 1%Qc else 0%Qc)
  | VNum q => Some q
  | _ => None
  end.

(** [a == b]; never raises on JSON values. *)
Fixpoint py_eq (a b : value) : bool :=
  match a, b with
  | VNone, VNone => true
  | VStr s, VStr t => String.eqb s t
  | VList l, VList m =>
      (fix go (l m : list value) : bool :=
         match l, m with
         | [], [] => true
         | x :: l', y :: m' => py_eq x y && go l' m'
         | _, _ => false
         end) l m
  | VDict d, VDict e =>
      (length d =? length e) &&
      (fix go (d : JSONType) : bool :=
         match d with
         | [] => true
         | (k, v) :: d' =>
             match dict_get k e with
             | Some w => py_eq v w && go d'
             | None => false
             end
         end) d
  | _, _ =>
      match num_of a, num_of b with
      | Some x, Some y => bool_decide (x = y)
      | _, _ => false
      end
  end.

Inductive ord_op : Set := OLt | OLe | OGt | OGe.

Definition cmp_num (op : ord_op) (x y : Qc) : bool :=
  match op with
  | OLt => bool_decide (x < y)%Qc
  | OLe => bool_decide (x ≤ y)%Qc
  | OGt => bool_decide (y < x)%Qc
  | OGe => bool_decide (y ≤ x)%Qc
  end.

Definition cmp_of (op : ord_op) (c : comparison) : bool :=
  match op, c with
  | OLt, Lt | OLe, Lt | OLe, Eq | OGt, Gt | OGe, Gt | OGe, Eq => true
  | _, _ => false
  end.

(** [a < b], [a <= b], [a > b], [a >= b]: defined between numbers, between
    strings and between lists; [TypeError] otherwise. *)
Fixpoint py_order (op : ord_op) (a b : value) : except bool :=
  match a, b with
  | VStr s, VStr t => Ok (cmp_of op (String.compare s t))
  | VList l, VList m =>
      (fix go (l m : list value) : except bool :=
         match l, m with
         | x :: l', y :: m' => if py_eq x y then go l' m' else py_order op x y
         | _, _ => Ok (cmp_of op (Nat.compare (length l) (length m)))
         end) l m
  | _, _ =>
      match num_of a, num_of b with
      | Some x, Some y => Ok (cmp_num op x y)
      | _, _ => Raise TypeError
      end
  end.

(** [tag in container] for a string [tag]. *)
Definition str_in (tag : string) (container : value) : except bool :=
  match container with
  | VList l => Ok (existsb (py_eq (VStr tag)) l)
  | VDict d => Ok (dict_contains tag d)
  | VStr s => Ok (is_substring tag s)
  | _ => Raise TypeError
  end.

(** [len(v)] *)
Definition py_len (v : value) : except Z :=
  match v with
  | VStr s => Ok (Z.of_nat (String.length s))
  | VList l => Ok (Z.of_nat (length l))
  | VDict d => Ok (Z.of_nat (length d))
  | _ => Raise TypeError
  end.

(** ** Lazy sequences

    A Python iterator that is consumed once: it yields items and then either
    ends or raises.  A generator expression over it yields what it can before
    the exception surfaces. *)
Inductive stream (A : Type) : Type :=
  | SNil
  | SCons (a : A) (s : stream A)
  | SRaise (e : exn).
Arguments SNil {A}.
Arguments SCons {A} a s.
Arguments SRaise {A} e.

Fixpoint stream_of_list {A} (l : list A) : stream A :=
  match l with
  | [] => SNil
  | a :: l' => SCons a (stream_of_list l')
  end.

(** The items yielded before the end or the exception. *)
Fixpoint yielded {A} (s : stream A) : list A :=
  match s with
  | SCons a s' => a :: yielded s'
  | _ => []
  end.

(** How the iteration ends. *)
Fixpoint gen_end {A} (s : stream A) : except unit :=
  match s with
  | SNil => Ok ()
  | SCons _ s' => gen_end s'
  | SRaise e => Raise e
  end.

(** [list(s)] *)
Fixpoint to_list {A} (s : stream A) : except (list A) :=
  match s with
  | SNil => Ok []
  | SCons a s' => l ← to_list s'; Ok (a :: l)
  | SRaise e => Raise e
  end.

(** [(x for x in s if p(x))] *)
Fixpoint gen_if {A} (p : A → except bool) (s : stream A) : stream A :=
  match s with
  | SNil => SNil
  | SCons a s' =>
      match p a with
      | Ok true => SCons a (gen_if p s')
      | Ok false => gen_if p s'
      | Raise e => SRaise e
      end
  | SRaise e => SRaise e
  end.

(** [(f(x) for x in s)] *)
Fixpoint gen_map {A B} (f : A → except B) (s : stream A) : stream B :=
  match s with
  | SNil => SNil
  | SCons a s' =>
      match f a with
      | Ok b => SCons b (gen_map f s')
      | Raise e => SRaise e
      end
  | SRaise e => SRaise e
  end.

(** ** Comparison operators *)

Module ComparisonOperator.

Inductive t : Set := eq | gt | geq | lt | leq.

Definition name (o : t) : string :=
  match o with
  | eq => "eq"
  | gt => "gt"
  | geq => "geq"
  | lt => "lt"
  | leq => "leq"
  end.

(** [for operator in cls: if operator.name == value: return operator] *)
Definition get_from_string (value : string) : except t :=
  match List.find (λ o, String.eqb (name o) value) [eq; gt; geq; lt; leq] with
  | Some o => Ok o
  | None => Raise ValueError
  end.

End ComparisonOperator.

(** The body of the [try] block of [apply_comparison_operator]. *)
Definition compare_values (value_1 value_2 : value)
    (comparison_operator : ComparisonOperator.t) : except bool :=
  match comparison_operator with
  | ComparisonOperator.eq => Ok (py_eq value_1 value_2)
  | ComparisonOperator.gt => py_order OGt value_1 value_2
  | ComparisonOperator.geq => py_order OGe value_1 value_2
  | ComparisonOperator.lt => py_order OLt value_1 value_2
  | ComparisonOperator.leq => py_order OLe value_1 value_2
  end.

(** [except TypeError: return False]; any other exception passes through. *)
Definition apply_comparison_operator (value_1 value_2 : value)
    (comparison_operator : ComparisonOperator.t) : except bool :=
  match compare_values value_1 value_2 comparison_operator with
  | Raise TypeError => Ok false
  | r => r
  end.

(** ** ProductStream *)

Abbreviation ProductStream := (stream JSONType).

Record datetime : Type := { timestamp : Qc }.

Module ProductStream.

Definition filter_by_country_tag (self : ProductStream) (country_tag : string)
    : ProductStream :=
  gen_if (λ product,
    str_in country_tag (py_or (get product "countries_tags") (VList []))) self.

Definition filter_by_state_tag (self : ProductStream) (state_tag : string)
    : ProductStream :=
  gen_if (λ product,
    str_in state_tag (py_or (get product "states_tags") (VList []))) self.

Definition filter_text_field (self : ProductStream) (field value : string)
    : ProductStream :=
  gen_if (λ product,
    Ok (py_eq (get_default product field (VStr "")) (VStr value))) self.

(** The operator name is resolved when the filter is built; the comparisons
    run when the stream is consumed. *)
Definition filter_number_field (self : ProductStream) (field : string)
    (ref dflt : value) (operator : string) : except ProductStream :=
  operator_ ← ComparisonOperator.get_from_string operator;
  Ok (gen_if (λ product,
        apply_comparison_operator (get_default product field dflt) ref operator_)
      self).

Definition filter_nonempty_text_field (self : ProductStream) (field : string)
    : ProductStream :=
  gen_if (λ product,
    Ok (negb (py_eq (py_or (get product field) (VStr "")) (VStr "")))) self.

Definition filter_empty_text_field (self : ProductStream) (field : string)
    : ProductStream :=
  gen_if (λ product,
    Ok (negb (negb (py_eq (py_or (get product field) (VStr "")) (VStr ""))))) self.

Definition filter_nonempty_tag_field (self : ProductStream) (field : string)
    : ProductStream :=
  gen_if (λ product, Ok (py_bool (py_or (get product field) (VList [])))) self.

Definition filter_empty_tag_field (self : ProductStream) (field : string)
    : ProductStream :=
  gen_if (λ product,
    Ok (negb (py_bool (py_or (get product field) (VList []))))) self.

(** ["last_modified_t" in product and product["last_modified_t"] >= t] and
    its [<=] twin. *)
Definition modified_since (from_timestamp : Qc) (product : JSONType) : except bool :=
  match dict_get "last_modified_t" product with
  | None => Ok false
  | Some t => py_order OGe t (VNum from_timestamp)
  end.

Definition modified_until (to_timestamp : Qc) (product : JSONType) : except bool :=
  match dict_get "last_modified_t" product with
  | None => Ok false
  | Some t => py_order OLe t (VNum to_timestamp)
  end.

(** A [datetime] is always true, so [if from_t:] tests [from_t is not None];
    the [elif] branch runs only when [from_t] is [None]. *)
Definition filter_by_modified_datetime (self : ProductStream)
    (from_t to_t : option datetime) : except ProductStream :=
  match from_t, to_t with
  | None, None => Raise ValueError
  | Some from_t, _ =>
      let from_timestamp := timestamp from_t in
      Ok (gen_if (modified_since from_timestamp) self)
  | None, Some to_t =>
      let to_timestamp := timestamp to_t in
      Ok (gen_if (modified_until to_timestamp) self)
  end.

Definition collect (self : ProductStream) : except (list JSONType) :=
  to_list self.

End ProductStream.

(** ** Product *)

Record Product : Type := {
  barcode : value;
  countries_tags : value;
  categories_tags : value;
  emb_codes_tags : value;
  labels_tags : value;
  quantity : value;
  expiration_date : value;
  brands_tags : value;
  stores_tags : value;
  unique_scans_n : value;
  images : value;
  image_ids : value;
  packagings : value;
  lang : value;
  ingredients_text : value;
  nutriments : value;
}.

(** [Product.__slots__] *)
Definition slots : list string :=
  [ "barcode"; "countries_tags"; "categories_tags"; "emb_codes_tags";
    "labels_tags"; "quantity"; "expiration_date"; "brands_tags";
    "stores_tags"; "unique_scans_n"; "images"; "image_ids"; "packagings";
    "lang"; "ingredients_text"; "nutriments" ].

(** The key of the raw record that [Product.__init__] reads into each
    attribute: the attribute's own name, except that [barcode] is read from
    [code]. *)
Definition source_key (attribute : string) : string :=
  if String.eqb attribute "barcode" then "code" else attribute.

Section WithDigitTest.

(** [key.isdigit()], as a test on strings.  The functions that sort the image
    keys are written over the test, so that what is proved of them for every
    test does not depend on which strings [str.isdigit] accepts; [isdigit]
    above is the test on the strings of this file. *)
Context (digit_test : string → bool).

(** [list(key for key in images.keys() if key.isdigit())]; [.keys()] exists
    on a dict only. *)
Definition digit_keys_by (images : value) : except value :=
  match images with
  | VDict d => Ok (VList (VStr <$> List.filter digit_test (dict_keys d)))
  | _ => Raise AttributeError
  end.

(** [Product.__init__] *)
Definition Product_init_by (product : JSONType) : except Product :=
  let images_ := py_or (get product "images") (VDict []) in
  image_ids_ ←
    (if dict_contains "image_ids" product
     then Ok (get product "image_ids")
     else digit_keys_by images_);
  Ok {| barcode := get product "code";
        countries_tags := py_or (get product "countries_tags") (VList []);
        categories_tags := py_or (get product "categories_tags") (VList []);
        emb_codes_tags := py_or (get product "emb_codes_tags") (VList []);
        labels_tags := py_or (get product "labels_tags") (VList []);
        quantity := py_or (get product "quantity") VNone;
        expiration_date := py_or (get product "expiration_date") VNone;
        brands_tags := py_or (get product "brands_tags") (VList []);
        stores_tags := py_or (get product "stores_tags") (VList []);
        packagings := py_or (get product "packagings") (VList []);
        unique_scans_n := py_or (get product "unique_scans_n") (VInt 0);
        images := images_;
        image_ids := image_ids_;
        lang := get product "lang";
        ingredients_text := get product "ingredients_text";
        nutriments := py_or (get product "nutriments") (VDict []) |}.

(** [Product.get_fields()] *)
Definition get_fields : list string :=
  [ "code"; "countries_tags"; "categories_tags"; "emb_codes_tags";
    "labels_tags"; "quantity"; "expiration_date"; "brands_tags";
    "stores_tags"; "unique_scans_n"; "images"; "lang"; "ingredients_text";
    "nutriments" ].

(** ** ProductStream.iter_product *)

(** [{k: item[k] for k in projection if k in item}] *)
Definition project_keys (projection : list string) (item : JSONType) : JSONType :=
  fold_left
    (λ acc k, match dict_get k item with
              | Some v => dict_set k v acc
              | None => acc
              end)
    projection [].

(** The body of the loop of [iter_product], up to the [yield]. *)
Definition projected_item_by (projection : option (list string)) (item : JSONType)
    : except JSONType :=
  match projection with
  | None | Some [] => Ok item
  | Some projection =>
      let projected := project_keys projection item in
      if bool_decide ("image_ids" ∈ projection) then
        ids ← digit_keys_by (py_or (get item "images") (VDict []));
        Ok (dict_set "image_ids" ids projected)
      else Ok projected
  end.

Definition iter_product_by (self : ProductStream)
    (projection : option (list string)) : stream Product :=
  gen_map (λ item, projected_item_by projection item ≫= Product_init_by) self.

End WithDigitTest.

(** The same with [str.isdigit] as the test. *)
Abbreviation digit_keys := (digit_keys_by isdigit).
Abbreviation Product_init := (Product_init_by isdigit).
Abbreviation projected_item := (projected_item_by isdigit).
Abbreviation iter_product := (iter_product_by isdigit).

(** ** The world outside the process

    The installed files, the private temporary directory of a refresh cycle,
    the HTTP server of the dataset, the MongoDB server, and the log of the
    calls that reach outside the process: HTTP requests, files opened for
    writing, file copies and database queries. *)

Inductive path : Type :=
  | Abs (p : string)
  | InTmp (name : string).

(** A snapshot file is a sequence of lines; [None] is a point where
    decompression or JSON decoding fails.  The token file is text. *)
Inductive content : Type :=
  | Jsonl (lines : list (option JSONType))
  | Text (s : string).

Record http_response : Type := {
  ETag : option string;
  raw : content;
}.

Inductive call : Type :=
  | HttpGet (url : string)
  | OpenWrite (p : path)
  | ShutilCopy (src dst : path)
  | MongoFindOne (db : string) (id : string)
  | MongoCount (db : string).

Record world : Type := {
  files : gmap string content;
  tmpdir : gmap string content;
  http : string → except http_response;
  mongo : gmap string (list JSONType);
  calls : list call;
}.

Definition set_files (f : gmap string content) (w : world) : world :=
  {| files := f; tmpdir := tmpdir w; http := http w; mongo := mongo w;
     calls := calls w |}.

Definition set_tmpdir (t : gmap string content) (w : world) : world :=
  {| files := files w; tmpdir := t; http := http w; mongo := mongo w;
     calls := calls w |}.

Definition record_call (c : call) (w : world) : world :=
  {| files := files w; tmpdir := tmpdir w; http := http w; mongo := mongo w;
     calls := calls w ++ [c] |}.

Definition read (w : world) (p : path) : option content :=
  match p with
  | Abs p => files w !! p
  | InTmp name => tmpdir w !! name
  end.

Definition write (p : path) (c : content) (w : world) : world :=
  match p with
  | Abs p => set_files (<[p := c]> (files w)) w
  | InTmp name => set_tmpdir (<[name := c]> (tmpdir w)) w
  end.

(** Code that touches the world and may raise. *)
Definition io (A : Type) : Type := world → except A * world.

Global Instance io_ret : MRet io := fun _ a w => (Ok a, w).
Global Instance io_bind : MBind io := fun _ _ f m w =>
  match m w with
  | (Ok a, w') => f a w'
  | (Raise e, w') => (Raise e, w')
  end.

Definition io_raise {A} (e : exn) : io A := fun w => (Raise e, w).
Definition io_lift {A} (m : except A) : io A := fun w => (m, w).
Definition io_get {A} (f : world → A) : io A := fun w => (Ok (f w), w).
Definition io_modify (f : world → world) : io unit := fun w => (Ok (), f w).

(** [with tempfile.TemporaryDirectory() as tmp_dir: body]: the directory is
    fresh on entry and gone on exit, also when the body raises. *)
Definition with_TemporaryDirectory {A} (body : io A) : io A := fun w =>
  let (r, w') := body (set_tmpdir ∅ w) in (r, set_tmpdir ∅ w').

(** ** Settings (robotoff.settings) *)
Record Settings : Type := {
  JSONL_DATASET_PATH : string;
  JSONL_MIN_DATASET_PATH : string;
  JSONL_DATASET_ETAG_PATH : string;
  JSONL_DATASET_URL : string;
  DATASET_CHECK_MIN_PRODUCT_COUNT : Z;
  ENABLE_MONGODB_ACCESS : bool;
}.

(** ** Small string helpers *)

Fixpoint endswith (s suffix : string) : bool :=
  String.eqb s suffix ||
  match s with
  | EmptyString => false
  | String _ s' => endswith s' suffix
  end.

Definition path_str (p : path) : string :=
  match p with
  | Abs p => p
  | InTmp name => "/tmp/" +:+ name
  end.

(** [s.strip(chars)] *)
Fixpoint lstrip (chars : list Ascii.ascii) (s : list Ascii.ascii) : list Ascii.ascii :=
  match s with
  | c :: s' => if bool_decide (c ∈ chars) then lstrip chars s' else s
  | [] => []
  end.

Definition strip (chars : list Ascii.ascii) (s : string) : string :=
  String.string_of_list_ascii
    (rev (lstrip chars (rev (lstrip chars (String.list_ascii_of_string s))))).

(** The single and the double quote, which are stripped from an ETag header. *)
Definition quotes : list Ascii.ascii :=
  [Ascii.ascii_of_nat 39; Ascii.ascii_of_nat 34].

(** [f.readline()] on a file opened in text mode: the first line, with its
    end of line.  Newlines are universal: a line feed, a carriage return or
    a carriage return followed by a line feed ends the line, and each is read
    as a line feed. *)
Fixpoint readline (s : string) : string :=
  match s with
  | EmptyString => EmptyString
  | String c s' =>
      if Ascii.eqb c (Ascii.ascii_of_nat 10) || Ascii.eqb c (Ascii.ascii_of_nat 13)
      then String (Ascii.ascii_of_nat 10) EmptyString
      else String c (readline s')
  end.

(** ** Reading a snapshot *)

(** Modelled from the spec: [jsonl_iter] and [gzip_jsonl_iter] of
    [robotoff.utils], which are not part of this module.  Reading a snapshot
    yields its records in file order, one per line; decompression is
    transparent; the iteration raises at the first line that fails to
    decompress or parse, and on a file that is missing or is not a snapshot. *)
Fixpoint jsonl_lines (lines : list (option JSONType)) : ProductStream :=
  match lines with
  | [] => SNil
  | Some item :: lines' => SCons item (jsonl_lines lines')
  | None :: _ => SRaise DecodeError
  end.

Definition jsonl_iter (w : world) (jsonl_path : path) : ProductStream :=
  match read w jsonl_path with
  | Some (Jsonl lines) => jsonl_lines lines
  | Some (Text _) => SRaise DecodeError
  | None => SRaise OSError
  end.

Definition gzip_jsonl_iter (w : world) (jsonl_path : path) : ProductStream :=
  jsonl_iter w jsonl_path.

(** [for _ in s: count += 1] *)
Fixpoint count_items {A} (s : stream A) (count : Z) : except Z :=
  match s with
  | SNil => Ok count
  | SCons _ s' => count_items s' (count + 1)%Z
  | SRaise e => Raise e
  end.

Module ProductDataset.

Definition stream (w : world) (jsonl_path : path) : ProductStream :=
  if endswith (path_str jsonl_path) ".gz"
  then gzip_jsonl_iter w jsonl_path
  else jsonl_iter w jsonl_path.

Definition count (w : world) (jsonl_path : path) : except Z :=
  count_items (stream w jsonl_path) 0%Z.

End ProductDataset.

(** ** Minification *)

(** [dict(pairs)] *)
Definition dict_of_pairs (pairs : list (string * value)) : JSONType :=
  fold_left (λ acc kv, dict_set kv.1 kv.2 acc) pairs [].

Definition minified_item (item : JSONType) : JSONType :=
  let available_fields := get_fields in
  dict_of_pairs
    (List.filter (λ kv, bool_decide (kv.1 ∈ available_fields)) item).

(** The output is opened (and so emptied) first; one line is written per item
    read; an exception of the reader leaves the lines written so far. *)
Definition minify_product_dataset (dataset_path output_path : path) : io unit :=
  fun w =>
    let w1 := write output_path (Jsonl []) (record_call (OpenWrite output_path) w) in
    let items :=
      if endswith (path_str dataset_path) ".gz"
      then gzip_jsonl_iter w1 dataset_path
      else jsonl_iter w1 dataset_path in
    let written := (λ item, Some (minified_item item)) <$> yielded items in
    (gen_end items, write output_path (Jsonl written) w1).

(** ** Keys of a Python dict

    A key is a hashable object; keys that compare equal are one key, so
    [True], [1] and [1.0] are the same key.  Lists and dicts are unhashable. *)
Inductive hkey : Type :=
  | KNone
  | KNum (q : Qc)
  | KStr (s : string).

Global Instance hkey_eq_dec : EqDecision hkey.
Proof. solve_decision. Defined.

Global Instance hkey_countable : Countable hkey.
Proof.
  refine (inj_countable'
    (λ k, match k with
          | KNone => inl ()
          | KNum q => inr (inl q)
          | KStr s => inr (inr s)
          end)
    (λ x, match x with
          | inl _ => KNone
          | inr (inl q) => KNum q
          | inr (inr s) => KStr s
          end) _).
  by intros [].
Defined.

Definition py_hash (v : value) : except hkey :=
  match v with
  | VNone => Ok KNone
  | VBool b => Ok (KNum (if b then 1%Qc else 0%Qc))
  | VNum q => Ok (KNum q)
  | VStr s => Ok (KStr s)
  | VList _ | VDict _ => Raise TypeError
  end.

(** ** MemoryProductStore *)

Module MemoryProductStore.

Record t : Type := { store : gmap hkey Product }.

Definition len (self : t) : nat := size (store self).

(** [for product in ...: if product.barcode: store[product.barcode] = product] *)
Fixpoint fill (products : stream Product) (store : gmap hkey Product)
    : except (gmap hkey Product) :=
  match products with
  | SNil => Ok store
  | SCons product products' =>
      if py_bool (barcode product) then
        k ← py_hash (barcode product);
        fill products' (<[k := product]> store)
      else fill products' store
  | SRaise e => Raise e
  end.

Definition load_from_path (w : world) (path : path)
    (projection : option (list string)) : except t :=
  match projection with
  | Some fields =>
      if bool_decide ("code" ∈ fields) then Ok () else Raise ValueError
  | None => Ok ()
  end;;
  let stream := ProductDataset.stream w path in
  store ← fill (iter_product stream projection) ∅;
  Ok {| store := store |}.

(** [self.store.get(item)] *)
Definition getitem (self : t) (item : value) : except (option Product) :=
  k ← py_hash item; Ok (store self !! k).

End MemoryProductStore.

(** ** The refresh cycle and the live store *)

(** Modelled from the spec: [ServerType] and [ProductIdentifier] of
    [robotoff.types], which are not part of this module.  A server type is a
    logical tenant whose value names its database; a product identifier is a
    barcode qualified by its server type. *)
Record ServerType : Type := { ServerType_value : string }.

Module ProductIdentifier.
Record t : Type := { barcode : string; server_type : ServerType }.
End ProductIdentifier.

(** pymongo, an external library: [find_one({"_id": id}, projection)] returns the first document
    with that [_id], restricted to [_id] and the projected fields, or [None];
    [estimated_document_count()] returns an [int]. *)
Definition mongo_project (projection : option (list string)) (doc : JSONType)
    : JSONType :=
  match projection with
  | None => doc
  | Some fields =>
      List.filter (λ kv, String.eqb kv.1 "_id" || bool_decide (kv.1 ∈ fields)) doc
  end.

Definition find_one (db : string) (id : string) (projection : option (list string))
    : io (option JSONType) := fun w =>
  (Ok (mongo_project projection <$>
         List.find (λ doc, py_eq (get doc "_id") (VStr id))
                   (default [] (mongo w !! db))),
   record_call (MongoFindOne db id) w).

Definition estimated_document_count (db : string) : io value := fun w =>
  (Ok (VInt (Z.of_nat (length (default [] (mongo w !! db))))),
   record_call (MongoCount db) w).

Section WithSettings.

Context (settings : Settings).

Definition get_product_dataset_etag (w : world) : except (option string) :=
  match files w !! JSONL_DATASET_ETAG_PATH settings with
  | None => Ok None
  | Some (Text s) => Ok (Some (readline s))
  | Some (Jsonl _) => Raise DecodeError
  end.

Definition save_product_dataset_etag (etag : string) : io unit :=
  let path := Abs (JSONL_DATASET_ETAG_PATH settings) in
  io_modify (λ w, write path (Text etag) (record_call (OpenWrite path) w)).

Definition download_dataset (output_path : path) : io string := fun w =>
  let w1 := record_call (HttpGet (JSONL_DATASET_URL settings)) w in
  match http w (JSONL_DATASET_URL settings) with
  | Raise e => (Raise e, w1)
  | Ok r =>
      let current_etag := strip quotes (default "" (ETag r)) in
      (Ok current_etag,
       write output_path (raw r) (record_call (OpenWrite output_path) w1))
  end.

Definition is_valid_dataset (w : world) (dataset_path : path) : bool :=
  match ProductDataset.count w dataset_path with
  | Raise _ => false
  | Ok count =>
      if (count <? DATASET_CHECK_MIN_PRODUCT_COUNT settings)%Z then false
      else true
  end.

(** [shutil.copy(src, dst)]: writes the content of [src] into [dst]. *)
Definition shutil_copy (src dst : path) : io unit := fun w =>
  let w1 := record_call (ShutilCopy src dst) w in
  match read w src with
  | None => (Raise OSError, w1)
  | Some c => (Ok (), write dst c w1)
  end.

Definition fetch_dataset (minify : bool) : io bool :=
  with_TemporaryDirectory (
    let output_path := InTmp "products.jsonl.gz" in
    etag ← download_dataset output_path;
    valid ← io_get (λ w, is_valid_dataset w output_path);
    if negb valid then mret false
    else
      let minify_path := InTmp "products-min.jsonl.gz" in
      (if minify then minify_product_dataset output_path minify_path
       else mret ());;
      shutil_copy output_path (Abs (JSONL_DATASET_PATH settings));;
      (if minify
       then shutil_copy minify_path (Abs (JSONL_MIN_DATASET_PATH settings))
       else mret ());;
      save_product_dataset_etag etag;;
      mret true).

End WithSettings.

Module DBProductStore.

Record t : Type := { server_type : ServerType }.

Definition db_name (self : t) : string := ServerType_value (server_type self).

(** [len(self.collection.estimated_document_count())] *)
Definition len (self : t) : io Z :=
  n ← estimated_document_count (db_name self);
  io_lift (py_len n).

Definition get_product (settings : Settings) (self : t)
    (product_id : ProductIdentifier.t) (projection : option (list string))
    : io (option JSONType) :=
  if negb (ENABLE_MONGODB_ACCESS settings) then mret None
  else find_one (db_name self) (ProductIdentifier.barcode product_id) projection.

(** [if product:] holds for a dict that is not empty. *)
Definition getitem (settings : Settings) (self : t)
    (product_id : ProductIdentifier.t) : io (option Product) :=
  product ← get_product settings self product_id None;
  match product with
  | Some ((_ :: _) as product) => p ← io_lift (Product_init product); mret (Some p)
  | _ => mret None
  end.

End DBProductStore.

(** ** Image paths

    [Path(image_path).stem], as pathlib computes it up to Python 3.12: the
    name is the last component of the path that is neither empty nor a single
    dot; the stem is the name without its last suffix, and a dot that starts
    or ends the name starts no suffix. *)

Definition slash : Ascii.ascii := Ascii.ascii_of_nat 47.
Definition dot : Ascii.ascii := Ascii.ascii_of_nat 46.

Fixpoint components (s cur : list Ascii.ascii) : list (list Ascii.ascii) :=
  match s with
  | [] => [rev cur]
  | c :: s' =>
      if Ascii.eqb c slash then rev cur :: components s' []
      else components s' (c :: cur)
  end.

Definition is_part (part : list Ascii.ascii) : bool :=
  match part with
  | [] => false
  | [c] => negb (Ascii.eqb c dot)
  | _ => true
  end.

Definition path_name (image_path : string) : list Ascii.ascii :=
  List.last
    (List.filter is_part (components (String.list_ascii_of_string image_path) []))
    [].

(** The characters after the last dot, and whether there is a dot at all. *)
Fixpoint after_last_dot (reversed : list Ascii.ascii) : option nat :=
  match reversed with
  | [] => None
  | c :: r => if Ascii.eqb c dot then Some 0
              else S <$> after_last_dot r
  end.

Definition stem (image_path : string) : string :=
  let name := path_name image_path in
  String.string_of_list_ascii
    (match after_last_dot (rev name) with
     | Some j =>
         if (0 <? j) && (S j <? length name)
         then List.firstn (length name - S j) name
         else name
     | None => name
     end).

Definition get_image_id (image_path : string) : option string :=
  let image_id := stem image_path in
  if isdigit image_id then Some image_id else None.

Definition is_valid_image (images : JSONType) (image_path : string) : bool :=
  let image_id := stem image_path in
  if negb (isdigit image_id) then false
  else dict_contains image_id images.

(** ["{}_".format(key)] and ["{}_{}".format(key, lang)] *)
Definition special_field_name (key : string) (lang : option string) : string :=
  match lang with
  | None => key +:+ "_"
  | Some lang => key +:+ "_" +:+ lang
  end.

Definition has_special_image (images : JSONType) (key : string)
    (lang : option string) : bool :=
  let field_name := special_field_name key lang in
  existsb (λ image_key, String.prefix field_name image_key) (dict_keys images).

Definition has_nutrition_image (images : JSONType) (lang : option string) : bool :=
  has_special_image images "nutrition" lang.

Section WithStr.

(** [str(x)]: the text of a string is the string; how Python prints the other
    values (a float is not printed as the int it equals) is left open. *)
Context (str : value → string).

(** The loop of [is_special_image]; [image_data.get] exists on a dict only,
    and is reached only for a key that starts with the image type. *)
Fixpoint special_image_loop (items : JSONType) (image_id image_type : string)
    (lang : option string) : except bool :=
  match items with
  | [] => Ok false
  | (image_key, image_data) :: items' =>
      if String.prefix image_type image_key then
        match image_data with
        | VDict fields =>
            if String.eqb (str (get fields "imgid")) image_id then
              match lang with
              | None => Ok true
              | Some lang =>
                  if endswith image_key ("_" +:+ lang) then Ok true
                  else special_image_loop items' image_id image_type (Some lang)
              end
            else special_image_loop items' image_id image_type lang
        | _ => Raise AttributeError
        end
      else special_image_loop items' image_id image_type lang
  end.

Definition is_special_image (images : JSONType) (image_path image_type : string)
    (lang : option string) : except bool :=
  if negb (is_valid_image images image_path) then Ok false
  else special_image_loop images (stem image_path) image_type lang.

Definition is_nutrition_image (images : JSONType) (image_path : string)
    (lang : option string) : except bool :=
  is_special_image images image_path "nutrition" lang.

End WithStr.

(** ** ProductStream.take

    [for i, item in enumerate(self): if i >= count: break; yield item]: the
    item at index [count] is drawn from the source before the loop breaks. *)
Fixpoint take_from {A} (i count : Z) (s : stream A) : stream A :=
  match s with
  | SNil => SNil
  | SCons item s' =>
      if (count <=? i)%Z then SNil
      else SCons item (take_from (i + 1)%Z count s')
  | SRaise e => SRaise e
  end.

Definition take {A} (self : stream A) (count : Z) : stream A :=
  take_from 0%Z count self.

(** ** Change detection

    [requests.head] asks the dataset server for its headers only; it raises
    what the server raises. *)
Definition has_dataset_changed (settings : Settings) (w : world) : except bool :=
  etag ← get_product_dataset_etag settings w;
  match etag with
  | Some etag =>
      r ← http w (JSONL_DATASET_URL settings);
      let current_etag := strip quotes (default "" (ETag r)) in
      if String.eqb current_etag etag then Ok false else Ok true
  | None => Ok true
  end.

(** ** Induction on nested values *)

Section value_induction.

Variable P : value → Prop.
Hypothesis HNone : P VNone.
Hypothesis HBool : ∀ b, P (VBool b).
Hypothesis HNum : ∀ q, P (VNum q).
Hypothesis HStr : ∀ s, P (VStr s).
Hypothesis HList : ∀ l, Forall P l → P (VList l).
Hypothesis HDict : ∀ d, Forall (λ kv, P kv.2) d → P (VDict d).

Fixpoint value_nested_ind (v : value) : P v :=
  match v with
  | VNone => HNone
  | VBool b => HBool b
  | VNum q => HNum q
  | VStr s => HStr s
  | VList l =>
      HList l ((fix go (l : list value) : Forall P l :=
                  match l with
                  | [] => Forall_nil_2 P
                  | x :: l' => Forall_cons_2 P x l' (value_nested_ind x) (go l')
                  end) l)
  | VDict d =>
      HDict d ((fix go (d : JSONType) : Forall (λ kv, P kv.2) d :=
                  match d with
                  | [] => Forall_nil_2 _
                  | kv :: d' =>
                      Forall_cons_2 _ kv d' (value_nested_ind kv.2) (go d')
                  end) d)
  end.

End value_induction.

(** ** Notions used in the statements *)

(** Whether a record passes a numeric filter: the comparison holds; an
    ill-typed comparison does not. *)
Definition number_field_matches (field : string) (ref dflt : value)
    (op : ComparisonOperator.t) (product : JSONType) : bool :=
  match compare_values (get_default product field dflt) ref op with
  | Ok b => b
  | Raise _ => false
  end.

(** When [iter_product] derives [image_ids] from the [images] it keeps: with
    no projection list or an empty one ([if projection:] is false of both),
    the raw record has no [image_ids] key of its own; and a projection list
    that is not empty and names [image_ids] names [images] too. *)
Definition derives_image_ids (projection : option (list string)) (r : JSONType)
    : Prop :=
  match projection with
  | None | Some [] => dict_contains "image_ids" r = false
  | Some fields => "image_ids" ∈ fields → "images" ∈ fields
  end.

(** The keys that consist only of decimal digits, 0 to 9, in the words of the
    specification; [str.isdigit] accepts more. *)
Definition only_decimal_digits (s : string) : bool :=
  negb (String.eqb s EmptyString) &&
  forallb is_decimal (String.list_ascii_of_string s).

(** The timestamp of a record, when it has a numeric one, and whether it lies
    within the bounds that are given. *)
Definition modified_at (product : JSONType) : option Qc :=
  dict_get "last_modified_t" product ≫= num_of.

Definition within (from_timestamp to_timestamp : option Qc) (product : JSONType)
    : bool :=
  match modified_at product with
  | Some t =>
      from_option (λ f, bool_decide (f ≤ t)%Qc) true from_timestamp &&
      from_option (λ u, bool_decide (t ≤ u)%Qc) true to_timestamp
  | None => false
  end.

(** The key under which [load_from_path] stores a product, if it stores it:
    the barcode, when it is true and hashable. *)
Definition key_of (product : Product) : option hkey :=
  if py_bool (barcode product) then
    match py_hash (barcode product) with
    | Ok k => Some k
    | Raise _ => None
    end
  else None.

Definition has_key (k : hkey) (product : Product) : bool :=
  bool_decide (key_of product = Some k).

(** ** Sample data *)

Definition at_time (z : Z) : datetime := {| timestamp := Qc_of_Z z |}.

Definition late_product : JSONType :=
  [("code", VStr "1"); ("last_modified_t", VInt 300)].

Definition off_store : DBProductStore.t :=
  {| DBProductStore.server_type := {| ServerType_value := "off" |} |}.

Definition sample_settings : Settings :=
  {| JSONL_DATASET_PATH := "/data/products.jsonl.gz";
     JSONL_MIN_DATASET_PATH := "/data/products-min.jsonl.gz";
     JSONL_DATASET_ETAG_PATH := "/data/products-etag.txt";
     JSONL_DATASET_URL := "https://static.example.org/products.jsonl.gz";
     DATASET_CHECK_MIN_PRODUCT_COUNT := 2;
     ENABLE_MONGODB_ACCESS := true |}.

Definition offline_settings : Settings :=
  {| JSONL_DATASET_PATH := "/data/products.jsonl.gz";
     JSONL_MIN_DATASET_PATH := "/data/products-min.jsonl.gz";
     JSONL_DATASET_ETAG_PATH := "/data/products-etag.txt";
     JSONL_DATASET_URL := "https://static.example.org/products.jsonl.gz";
     DATASET_CHECK_MIN_PRODUCT_COUNT := 2;
     ENABLE_MONGODB_ACCESS := false |}.

Definition french_product : JSONType :=
  [("code", VStr "1"); ("countries_tags", VList [VStr "fr"]); ("lang", VStr "fr")].

Definition german_product : JSONType :=
  [("code", VStr "2"); ("countries_tags", VList [VStr "de"]); ("lang", VStr "fr")].

Definition bare_product : JSONType := [("code", VStr "3")].

Definition sample_id : ProductIdentifier.t :=
  {| ProductIdentifier.barcode := "3017620422003";
     ProductIdentifier.server_type := {| ServerType_value := "off" |} |}.

(** A world with a snapshot installed under token [v1], whose dataset server
    offers a two-record snapshot under token [v2]. *)
Definition installed_files : gmap string content :=
  {[ "/data/products.jsonl.gz" := Jsonl [Some bare_product];
     "/data/products-min.jsonl.gz" := Jsonl [Some bare_product];
     "/data/products-etag.txt" := Text "v1" ]}.

Definition sample_world : world :=
  {| files := installed_files;
     tmpdir := ∅;
     http := λ _, Ok {| ETag := Some "v2";
                        raw := Jsonl [Some french_product; Some german_product] |};
     mongo := {[ "off" := [[("_id", VStr "1"); ("code", VStr "1")]] ]};
     calls := [] |}.

(** The same world, with a download that breaks off after its first record. *)
Definition broken_world : world :=
  {| files := installed_files;
     tmpdir := ∅;
     http := λ _, Ok {| ETag := Some "v2";
                        raw := Jsonl [Some french_product; None] |};
     mongo := ∅;
     calls := [] |}.

(** A record with a precomputed [image_ids] key that disagrees with its
    [images]. *)
Definition precomputed_product : JSONType :=
  [("code", VStr "4");
   ("images", VDict [("1", VDict []); ("front_en", VDict [])]);
   ("image_ids", VList [VStr "9"])].

Definition pictured_product : JSONType :=
  [("code", VStr "5");
   ("images", VDict [("1", VDict []); ("nutrition_fr", VDict []); ("2", VDict [])])].

(** The superscript two, a digit for [str.isdigit] that is not a decimal
    digit, and a record that has it among its image keys. *)
Definition superscript_two : string :=
  String (Ascii.ascii_of_nat 178) EmptyString.

Definition superscript_product : JSONType :=
  [("code", VStr "7");
   ("images", VDict [("1", VDict []); (superscript_two, VDict [])])].

(** A snapshot in which the code 1 comes twice. *)
Definition repeated_lines : list (option JSONType) :=
  [ Some [("code", VStr "1"); ("lang", VStr "fr")];
    Some [("code", VStr "2")];
    Some [("lang", VStr "it")];
    Some [("code", VStr "1"); ("lang", VStr "de")] ].

Definition repeated_world : world :=
  {| files := {[ "/data/products-min.jsonl.gz" := Jsonl repeated_lines ]};
     tmpdir := ∅;
     http := λ _, Raise OSError;
     mongo := ∅;
     calls := [] |}.

Definition repeated_items : list JSONType :=
  omap id repeated_lines.

Definition repeated_products : list Product :=
  omap (λ item, match Product_init item with
                | Ok product => Some product
                | Raise _ => None
                end) repeated_items.

(** ** Further sample data *)

(** The images of a product with two raw photos and two selected ones. *)
Definition sample_images : JSONType :=
  [ ("1", VDict []);
    ("2", VDict []);
    ("nutrition_fr", VDict [("imgid", VStr "2")]);
    ("front_en", VDict [("imgid", VStr "1")]) ].

(** [str] on the strings of the sample. *)
Definition text_of (v : value) : string :=
  match v with
  | VStr s => s
  | _ => "None"
  end.

(** Whether the tag sequence of a record, under a field, holds a tag. *)
Definition has_tag (field tag : string) (product : JSONType) : bool :=
  match py_or (get product field) (VList []) with
  | VList tags => existsb (py_eq (VStr tag)) tags
  | _ => false
  end.

(** A record whose country tags are a number. *)
Definition mistyped_product : JSONType :=
  [("code", VStr "6"); ("countries_tags", VInt 5)].

(** A Record with its [packagings] emptied. *)
Definition without_packagings (p : Product) : Product :=
  {| barcode := barcode p;
     countries_tags := countries_tags p;
     categories_tags := categories_tags p;
     emb_codes_tags := emb_codes_tags p;
     labels_tags := labels_tags p;
     quantity := quantity p;
     expiration_date := expiration_date p;
     brands_tags := brands_tags p;
     stores_tags := stores_tags p;
     unique_scans_n := unique_scans_n p;
     images := images p;
     image_ids := image_ids p;
     packagings := VList [];
     lang := lang p;
     ingredients_text := ingredients_text p;
     nutriments := nutriments p |}.

(** Whether a key is in the whitelist of minification. *)
Definition whitelisted (kv : string * value) : bool :=
  bool_decide (kv.1 ∈ get_fields).

(** A record with packagings and a key outside the whitelist. *)
Definition packaged_product : JSONType :=
  [("code", VStr "7"); ("packagings", VList [VDict [("shape", VStr "box")]]);
   ("lang", VStr "fr"); ("creator", VStr "someone");
   ("images", VDict [("1", VDict [])])].

(** The line feed and the carriage return, and a world whose dataset server
    is down. *)
Definition newline : Ascii.ascii := Ascii.ascii_of_nat 10.

Definition carriage_return : Ascii.ascii := Ascii.ascii_of_nat 13.

(** A string of one line, with no end of line in it. *)
Definition one_line (s : string) : Prop :=
  (newline ∉ String.list_ascii_of_string s) ∧
  (carriage_return ∉ String.list_ascii_of_string s).

(** A token with a carriage return in it. *)
Definition broken_token : string :=
  String (Ascii.ascii_of_nat 97) (String carriage_return "b").

Definition unreachable_world : world :=
  {| files := installed_files;
     tmpdir := ∅;
     http := λ _, Raise OSError;
     mongo := ∅;
     calls := [] |}.

(** * Properties *)

(** ** Comparisons *)

Lemma py_order_raises_TypeError op a :
  ∀ b e, py_order op a b = Raise e → e = TypeError.
Proof.
  induction a as [|c|q|s|l IH|d IH] using value_nested_ind; intros b e H.
  1-4: destruct b; simpl in H; try congruence;
       repeat match type of H with
              | context [match ?x with _ => _ end] => destruct x
              end; congruence.
  - destruct b as [| | | |m|]; simpl in H; try congruence.
    revert m H. induction IH as [|x l Hx Hl IHl]; intros m H.
    + destruct m; discriminate.
    + destruct m as [|y m]; [discriminate|].
      destruct (py_eq x y); eauto.
  - destruct b; simpl in H; congruence.
Qed.

Lemma compare_values_raises_TypeError v1 v2 op e :
  compare_values v1 v2 op = Raise e → e = TypeError.
Proof.
  destruct op; simpl; try discriminate; apply py_order_raises_TypeError.
Qed.

Lemma apply_comparison_operator_matches v1 v2 op :
  apply_comparison_operator v1 v2 op =
  Ok (match compare_values v1 v2 op with Ok b => b | Raise _ => false end).
Proof.
  unfold apply_comparison_operator.
  destruct (compare_values v1 v2 op) as [b|e] eqn:E; [done|].
  by rewrite (compare_values_raises_TypeError _ _ _ _ E).
Qed.

Lemma get_from_string_name op :
  ComparisonOperator.get_from_string (ComparisonOperator.name op) = Ok op.
Proof. by destruct op. Qed.

(** ** Generator expressions *)

Lemma gen_if_total_yielded {A} (p : A → bool) (s : stream A) :
  yielded (gen_if (λ a, Ok (p a)) s) = List.filter p (yielded s).
Proof.
  induction s as [|a s IH|e]; simpl; [done| |done].
  destruct (p a); simpl; by rewrite IH.
Qed.

Lemma gen_if_total_end {A} (p : A → bool) (s : stream A) :
  gen_end (gen_if (λ a, Ok (p a)) s) = gen_end s.
Proof.
  induction s as [|a s IH|e]; simpl; [done| |done].
  destruct (p a); simpl; by rewrite IH.
Qed.

Lemma gen_if_ext {A} (p q : A → except bool) (s : stream A) :
  (∀ a, p a = q a) → gen_if p s = gen_if q s.
Proof.
  intros Hpq. induction s as [|a s IH|e]; simpl; [done| |done].
  by rewrite Hpq, IH.
Qed.

Lemma gen_if_ext_yielded {A} (p q : A → except bool) (s : stream A) :
  (∀ a, a ∈ yielded s → p a = q a) → gen_if p s = gen_if q s.
Proof.
  induction s as [|a s IH|e]; simpl; intros Hpq; [done| |done].
  rewrite (Hpq a) by left. rewrite IH; [done|].
  intros x Hx. apply Hpq. by right.
Qed.

Lemma gen_if_comm {A} (a b : A → except bool) (s : stream A) :
  (∀ x, x ∈ yielded s → is_Ok (a x)) →
  (∀ x, x ∈ yielded s → is_Ok (b x)) →
  gen_if b (gen_if a s) = gen_if a (gen_if b s).
Proof.
  induction s as [|x s IH|e]; simpl; intros Ha Hb; [done| |done].
  destruct (Ha x) as [u Hu]; [left|].
  destruct (Hb x) as [v Hv]; [left|].
  assert (gen_if b (gen_if a s) = gen_if a (gen_if b s)) as IH'.
  { apply IH; intros y Hy; [apply Ha | apply Hb]; by right. }
  rewrite Hu, Hv. destruct u, v; simpl; rewrite ?Hu, ?Hv; by rewrite ?IH'.
Qed.

Lemma to_list_yielded {A} (s : stream A) :
  to_list s = (gen_end s ≫= λ _, Ok (yielded s)).
Proof.
  induction s as [|a s IH|e]; simpl; [done| |done].
  rewrite IH. by destruct (gen_end s).
Qed.

(** ** Filtering on a number field *)

(** C8. [apply_comparison_operator] always returns a boolean, and returns
    [False] when the comparison of its operands is ill-typed; a stream built
    by [filter_number_field] with a known operator keeps exactly the records
    whose comparison holds, drops those whose comparison is ill-typed, and
    ends the way its source ends: the filter raises nothing of its own while
    it is consumed. *)
Theorem filter_number_field_type_mismatch :
  (∀ value_1 value_2 op,
     ∃ b, apply_comparison_operator value_1 value_2 op = Ok b) ∧
  (∀ value_1 value_2 op,
     compare_values value_1 value_2 op = Raise TypeError →
     apply_comparison_operator value_1 value_2 op = Ok false) ∧
  (∀ (self : ProductStream) field ref dflt op,
     ∃ filtered,
       ProductStream.filter_number_field self field ref dflt
         (ComparisonOperator.name op) = Ok filtered ∧
       yielded filtered =
         List.filter (number_field_matches field ref dflt op) (yielded self) ∧
       gen_end filtered = gen_end self ∧
       ∀ product,
         compare_values (get_default product field dflt) ref op = Raise TypeError →
         product ∉ yielded filtered).
Proof.
  split; [|split].
  - intros v1 v2 op. rewrite apply_comparison_operator_matches. eauto.
  - intros v1 v2 op H. by rewrite apply_comparison_operator_matches, H.
  - intros self field ref dflt op.
    unfold ProductStream.filter_number_field.
    rewrite get_from_string_name. simpl.
    eexists. split; [reflexivity|].
    rewrite (gen_if_ext _ (λ a, Ok (number_field_matches field ref dflt op a)))
      by (intros a; apply apply_comparison_operator_matches).
    rewrite gen_if_total_yielded, gen_if_total_end.
    split; [done|]. split; [done|].
    intros product H Hin.
    apply list_elem_of_In, filter_In in Hin as [_ Hm].
    unfold number_field_matches in Hm. by rewrite H in Hm.
Qed.

Lemma filter_number_field_type_mismatch_witness :
  compare_values (VStr "many") (VInt 10) ComparisonOperator.gt = Raise TypeError ∧
  apply_comparison_operator (VStr "many") (VInt 10) ComparisonOperator.gt = Ok false.
Proof.
  split; [reflexivity|].
  apply (proj1 (proj2 filter_number_field_type_mismatch)). reflexivity.
Defined.

(** ** Filter by modification time *)

Lemma filter_by_modified_datetime_both self from_t to_t :
  ProductStream.filter_by_modified_datetime self (Some from_t) (Some to_t) =
  ProductStream.filter_by_modified_datetime self (Some from_t) None.
Proof. reflexivity. Qed.

Lemma modified_since_numeric from_timestamp product t :
  dict_get "last_modified_t" product = Some (VNum t) →
  ProductStream.modified_since from_timestamp product =
  Ok (bool_decide (from_timestamp ≤ t)%Qc).
Proof. unfold ProductStream.modified_since. by intros ->. Qed.

Lemma modified_until_numeric to_timestamp product t :
  dict_get "last_modified_t" product = Some (VNum t) →
  ProductStream.modified_until to_timestamp product =
  Ok (bool_decide (t ≤ to_timestamp)%Qc).
Proof. unfold ProductStream.modified_until. by intros ->. Qed.


(** C1. With both bounds given, [filter_by_modified_datetime] applies the
    lower bound only: a record modified at 300, which is not within 100 and
    200, passes the filter from 100 to 200, although the filter up to 200
    alone rejects it. *)
Theorem filter_by_modified_datetime_upper_bound_ignored :
  within (Some (timestamp (at_time 100))) (Some (timestamp (at_time 200)))
         late_product = false ∧
  (ProductStream.filter_by_modified_datetime (stream_of_list [late_product])
     (Some (at_time 100)) (Some (at_time 200)) ≫= ProductStream.collect)
  = Ok [late_product] ∧
  (ProductStream.filter_by_modified_datetime (stream_of_list [late_product])
     None (Some (at_time 200)) ≫= ProductStream.collect)
  = Ok [].
Proof. repeat split; reflexivity. Qed.

(** ** Commuting filters *)

(** C9, as the code has it.  Two filter stages whose tests return a boolean
    for every record that the source yields commute: collecting after [a]
    then [b] gives the same result, the same records in the same order or the
    same exception of the source, as collecting after [b] then [a]. *)
Theorem filters_commute (a b : JSONType → except bool) (source : ProductStream) :
  (∀ product, product ∈ yielded source → is_Ok (a product)) →
  (∀ product, product ∈ yielded source → is_Ok (b product)) →
  ProductStream.collect (gen_if b (gen_if a source)) =
  ProductStream.collect (gen_if a (gen_if b source)).
Proof. intros Ha Hb. by rewrite gen_if_comm. Qed.

Lemma filters_commute_witness :
  let source := stream_of_list [french_product; german_product; bare_product] in
  ProductStream.collect
    (ProductStream.filter_text_field
       (ProductStream.filter_by_country_tag source "fr") "lang" "fr") =
  ProductStream.collect
    (ProductStream.filter_by_country_tag
       (ProductStream.filter_text_field source "lang" "fr") "fr").
Proof.
  intros source.
  apply (filters_commute
           (λ product,
              str_in "fr" (py_or (get product "countries_tags") (VList [])))
           (λ product,
              Ok (py_eq (get_default product "lang" (VStr "")) (VStr "fr")))
           source).
  - intros product Hin. simpl in Hin.
    repeat (apply elem_of_cons in Hin as [->|Hin]; [eexists; reflexivity|]).
    by apply elem_of_nil in Hin.
  - intros product _. eexists; reflexivity.
Defined.

(** C9, as stated, fails when a test raises.  The country filter raises
    [TypeError] on a record whose [countries_tags] are a number, and the text
    filter drops that record: text then country collects the French record,
    country then text raises. *)
Lemma filters_commute_counterexample :
  let source := stream_of_list [mistyped_product; french_product] in
  ProductStream.collect
    (ProductStream.filter_by_country_tag
       (ProductStream.filter_text_field source "lang" "fr") "fr")
  = Ok [french_product] ∧
  ProductStream.collect
    (ProductStream.filter_text_field
       (ProductStream.filter_by_country_tag source "fr") "lang" "fr")
  = Raise TypeError.
Proof. split; reflexivity. Qed.

(** The stages that test with [==] or a truth value decide every record, so
    they commute on every source. *)
Corollary text_and_tag_filters_commute (self : ProductStream) field value tag_field :
  ProductStream.collect
    (ProductStream.filter_nonempty_tag_field
       (ProductStream.filter_text_field self field value) tag_field) =
  ProductStream.collect
    (ProductStream.filter_text_field
       (ProductStream.filter_nonempty_tag_field self tag_field) field value).
Proof.
  unfold ProductStream.filter_nonempty_tag_field, ProductStream.filter_text_field.
  unfold ProductStream.collect.
  by rewrite gen_if_comm by (intros; eexists; reflexivity).
Qed.

(** Whatever the tests, two orders of the same two filters that both run to
    the end keep the same records. *)
Lemma filters_agree_when_both_complete {A} (a b : A → except bool)
    (s : stream A) l1 l2 :
  to_list (gen_if b (gen_if a s)) = Ok l1 →
  to_list (gen_if a (gen_if b s)) = Ok l2 →
  l1 = l2.
Proof.
  revert l1 l2. induction s as [|x s IH|e]; simpl; intros l1 l2.
  - by intros [= <-] [= <-].
  - destruct (a x) as [[]|ea] eqn:Ha, (b x) as [[]|eb] eqn:Hb; simpl;
      rewrite ?Ha, ?Hb; simpl; try done.
    + destruct (to_list (gen_if b (gen_if a s))) as [k1|]; simpl; [|done].
      destruct (to_list (gen_if a (gen_if b s))) as [k2|]; simpl; [|done].
      intros [= <-] [= <-]. f_equal. by apply IH.
    + apply IH.
    + apply IH.
    + apply IH.
  - done.
Qed.

(** ** The live store *)

Lemma py_eq_VStr v s : py_eq v (VStr s) = true → v = VStr s.
Proof.
  destruct v as [|[]|q|t|l|d]; simpl; try discriminate.
  by intros ->%String.eqb_eq.
Qed.

Lemma find_none_Forall {A} (f : A → bool) (l : list A) :
  Forall (λ x, f x = false) l → List.find f l = None.
Proof. induction 1 as [|x l Hx _ IH]; simpl; [done|]. by rewrite Hx. Qed.

(** C6. [len] of a live store raises [TypeError], whatever the collection
    holds: the document count is fetched, it is an [int], and an [int] has no
    [len]. *)
Theorem DBProductStore_len_raises (self : DBProductStore.t) (w : world) :
  DBProductStore.len self w =
  (Raise TypeError, record_call (MongoCount (DBProductStore.db_name self)) w).
Proof.
  unfold DBProductStore.len, mbind, io_bind, estimated_document_count.
  unfold io_lift, VInt. reflexivity.
Qed.

(** C7. With remote access disabled, a lookup in the live store returns
    [None] and leaves the world as it is (no call is made); with remote access
    enabled, a lookup of an identifier that no document carries returns [None]
    rather than raising. *)
Theorem DBProductStore_lookup_absent settings self product_id (w : world) :
  (ENABLE_MONGODB_ACCESS settings = false →
     DBProductStore.getitem settings self product_id w = (Ok None, w) ∧
     ∀ projection,
       DBProductStore.get_product settings self product_id projection w
       = (Ok None, w)) ∧
  (ENABLE_MONGODB_ACCESS settings = true →
     Forall (λ doc, get doc "_id" ≠ VStr (ProductIdentifier.barcode product_id))
            (default [] (mongo w !! DBProductStore.db_name self)) →
     (DBProductStore.getitem settings self product_id w).1 = Ok None ∧
     ∀ projection,
       (DBProductStore.get_product settings self product_id projection w).1
       = Ok None).
Proof.
  split.
  - intros Hoff. unfold DBProductStore.getitem, DBProductStore.get_product.
    rewrite Hoff. done.
  - intros Hon Habsent.
    assert (List.find
              (λ doc, py_eq (get doc "_id")
                        (VStr (ProductIdentifier.barcode product_id)))
              (default [] (mongo w !! DBProductStore.db_name self)) = None) as Hfind.
    { apply find_none_Forall. eapply List.Forall_impl; [|exact Habsent].
      intros doc Hne. simpl in Hne.
      destruct (py_eq _ _) eqn:E; [|done]. by apply py_eq_VStr in E. }
    unfold DBProductStore.getitem, DBProductStore.get_product.
    rewrite Hon. simpl. unfold mbind, io_bind, find_one.
    rewrite Hfind. done.
Qed.

Lemma DBProductStore_lookup_absent_witness :
  DBProductStore.getitem offline_settings off_store sample_id sample_world
  = (Ok None, sample_world) ∧
  (DBProductStore.getitem sample_settings off_store sample_id sample_world).1
  = Ok None.
Proof.
  split.
  - apply (DBProductStore_lookup_absent offline_settings off_store sample_id
             sample_world). reflexivity.
  - apply (DBProductStore_lookup_absent sample_settings off_store sample_id
             sample_world); [reflexivity|].
    vm_compute. repeat constructor. discriminate.
Defined.

(** ** Dicts *)

Lemma dict_get_set_eq k v d : dict_get k (dict_set k v d) = Some v.
Proof.
  induction d as [|[k' v'] d IH]; simpl.
  - by rewrite String.eqb_refl.
  - destruct (String.eqb k k') eqn:E; simpl; by rewrite ?E, ?String.eqb_refl.
Qed.

Lemma dict_get_set_ne k k' v d :
  k ≠ k' → dict_get k' (dict_set k v d) = dict_get k' d.
Proof.
  intros Hne.
  assert (String.eqb k' k = false) as Hb by (apply String.eqb_neq; congruence).
  induction d as [|[k0 v0] d IH]; simpl.
  - by rewrite Hb.
  - destruct (String.eqb k k0) eqn:E; simpl.
    + apply String.eqb_eq in E as <-. by rewrite Hb.
    + by rewrite IH.
Qed.

Lemma dict_get_set k k' v d :
  dict_get k' (dict_set k v d) = if decide (k = k') then Some v else dict_get k' d.
Proof.
  case_decide as H; [subst; apply dict_get_set_eq | by apply dict_get_set_ne].
Qed.

Lemma dict_get_project_keys_acc k projection item acc :
  dict_get k
    (fold_left
       (λ acc k, match dict_get k item with
                 | Some v => dict_set k v acc
                 | None => acc
                 end) projection acc) =
  match (if bool_decide (k ∈ projection) then dict_get k item else None) with
  | Some v => Some v
  | None => dict_get k acc
  end.
Proof.
  revert acc. induction projection as [|k0 projection IH]; intros acc; simpl.
  - done.
  - rewrite IH. destruct (decide (k = k0)) as [->|Hne].
    + rewrite (bool_decide_eq_true_2 (k0 ∈ k0 :: projection)) by left.
      destruct (bool_decide (k0 ∈ projection)).
      * destruct (dict_get k0 item) as [v|]; [done|done].
      * destruct (dict_get k0 item) as [v|]; [apply dict_get_set_eq|done].
    + assert (bool_decide (k ∈ k0 :: projection) = bool_decide (k ∈ projection)) as ->.
      { apply bool_decide_ext. rewrite elem_of_cons. tauto. }
      destruct (if bool_decide (k ∈ projection) then dict_get k item else None);
        [done|].
      destruct (dict_get k0 item); [|done].
      by rewrite dict_get_set_ne.
Qed.

Lemma dict_get_project_keys k projection item :
  dict_get k (project_keys projection item) =
  if bool_decide (k ∈ projection) then dict_get k item else None.
Proof.
  unfold project_keys. rewrite dict_get_project_keys_acc.
  by destruct (if bool_decide (k ∈ projection) then dict_get k item else None).
Qed.

(** ** Image identifiers *)

(** A key of decimal digits passes [str.isdigit]; the superscript two passes
    it too. *)
Lemma only_decimal_digits_isdigit (s : string) :
  only_decimal_digits s = true → isdigit s = true.
Proof.
  unfold only_decimal_digits, isdigit.
  intros [Hne Hall]%andb_true_iff. rewrite Hne. simpl. clear Hne.
  induction s as [|c s IH]; simpl in *; [done|].
  apply andb_true_iff in Hall as [Hc Hall].
  unfold char_isdigit. rewrite Hc. simpl. by apply IH.
Qed.

Lemma isdigit_superscript_two :
  isdigit superscript_two = true ∧ only_decimal_digits superscript_two = false.
Proof. split; reflexivity. Qed.

Section DigitTest.

Context (digit_test : string → bool).

Lemma Product_init_image_ids product p :
  Product_init_by digit_test product = Ok p →
  images p = py_or (get product "images") (VDict []) ∧
  (if dict_contains "image_ids" product
   then image_ids p = get product "image_ids"
   else Ok (image_ids p) = digit_keys_by digit_test (images p)).
Proof.
  unfold Product_init_by.
  destruct (dict_contains "image_ids" product); simpl.
  - by intros [= <-].
  - destruct (digit_keys_by _ _) as [ids|e] eqn:E; simpl; [|done].
    by intros [= <-].
Qed.

(** A Record is built from every raw record whose [images] are a dict, null
    or absent. *)
Lemma iter_product_builds projection (item : JSONType) d :
  py_or (get item "images") (VDict []) = VDict d →
  ∃ product,
    projected_item_by digit_test projection item ≫= Product_init_by digit_test
    = Ok product.
Proof.
  intros Himages.
  assert (∀ item', py_or (get item' "images") (VDict []) = VDict d ∨
                   py_or (get item' "images") (VDict []) = VDict [] →
                   ∃ product, Product_init_by digit_test item' = Ok product)
    as Hinit.
  { intros item' H. unfold Product_init_by.
    destruct (dict_contains "image_ids" item'); simpl; [eauto|].
    destruct H as [-> | ->]; simpl; eauto. }
  destruct projection as [[|f fields]|]; simpl.
  1, 3: apply Hinit; by left.
  destruct (bool_decide ("image_ids" ∈ f :: fields)) eqn:Hin.
  - rewrite Himages. simpl. unfold Product_init_by, dict_contains.
    rewrite dict_get_set_eq. simpl. eauto.
  - simpl. apply Hinit. unfold get.
    change (fold_left _ (f :: fields) []) with (project_keys (f :: fields) item).
    rewrite dict_get_project_keys.
    destruct (bool_decide ("images" ∈ f :: fields)); [left; exact Himages|by right].
Qed.

End DigitTest.

(** C2, as the code has it.  Whatever strings [str.isdigit] accepts, the
    [image_ids] of the Record that [iter_product] builds from a raw record
    are the keys of the Record's [images] that pass [str.isdigit], in order,
    on two conditions: with no projection list or an empty one, the raw
    record has no [image_ids] key of its own; and a projection list that is
    not empty and names [image_ids] names [images] too.  With no projection
    list or an empty one, a raw record that carries an [image_ids] key gives
    that value to the Record as it is. *)
Theorem image_ids_of_Record (digit_test : string → bool) (r : JSONType)
    projection (p : Product) :
  projected_item_by digit_test projection r ≫= Product_init_by digit_test = Ok p →
  (derives_image_ids projection r →
   Ok (image_ids p) = digit_keys_by digit_test (images p)) ∧
  (projection = None ∨ projection = Some [] →
   dict_contains "image_ids" r = true →
   image_ids p = get r "image_ids").
Proof.
  intros Hp.
  destruct projection as [[|f fields]|].
  1, 3: simpl in Hp; apply Product_init_image_ids in Hp as [_ Hids];
        split; [intros Hd; simpl in Hd; by rewrite Hd in Hids
               | intros _ Hc; by rewrite Hc in Hids].
  split; [|intros [|]; discriminate].
  intros Hd. simpl in Hd.
  unfold projected_item_by in Hp.
  destruct (bool_decide ("image_ids" ∈ f :: fields)) eqn:Hin.
  - apply bool_decide_eq_true in Hin. specialize (Hd Hin).
    destruct (digit_keys_by digit_test (py_or (get r "images") (VDict [])))
      as [ids|e] eqn:E; simpl in Hp; [|done].
    apply Product_init_image_ids in Hp as [Himages Hids].
    unfold dict_contains in Hids. rewrite dict_get_set_eq in Hids.
    unfold get in Hids, Himages.
    rewrite dict_get_set_eq in Hids.
    rewrite dict_get_set_ne, dict_get_project_keys in Himages by done.
    rewrite bool_decide_eq_true_2 in Himages by done.
    rewrite Hids, Himages. simpl. by rewrite <- E.
  - simpl in Hp. apply Product_init_image_ids in Hp as [_ Hids].
    unfold dict_contains in Hids.
    rewrite dict_get_project_keys, Hin in Hids. done.
Qed.

Lemma image_ids_of_Record_witness :
  ∃ p, projected_item None pictured_product ≫= Product_init = Ok p ∧
       derives_image_ids None pictured_product ∧
       Ok (image_ids p) = digit_keys (images p) ∧
       image_ids p = VList [VStr "1"; VStr "2"].
Proof.
  eexists. split; [reflexivity|]. split; [reflexivity|]. split; [|reflexivity].
  apply (image_ids_of_Record isdigit pictured_product None); reflexivity.
Defined.

(** C2, as stated, fails in three ways.  A raw record that carries its own
    [image_ids] gives it to the Record: the Record takes ["9"] while its
    [images] have the single digit key ["1"].  A projection list that names
    [image_ids] and not [images] gives a Record whose [image_ids] come from
    the raw [images], ["1"] and ["2"], while its own [images] are empty.  And
    a key made of the superscript two passes [str.isdigit], so it is among
    the [image_ids], while it does not consist of decimal digits. *)
Lemma image_ids_counterexample :
  (∃ p, projected_item None precomputed_product ≫= Product_init = Ok p ∧
        image_ids p = VList [VStr "9"] ∧
        digit_keys (images p) = Ok (VList [VStr "1"])) ∧
  (∃ p, projected_item (Some ["code"; "image_ids"]) pictured_product
          ≫= Product_init = Ok p ∧
        dict_contains "image_ids" pictured_product = false ∧
        image_ids p = VList [VStr "1"; VStr "2"] ∧
        digit_keys (images p) = Ok (VList [])) ∧
  (∃ p, projected_item None superscript_product ≫= Product_init = Ok p ∧
        derives_image_ids None superscript_product ∧
        image_ids p = VList [VStr "1"; VStr superscript_two] ∧
        digit_keys_by only_decimal_digits (images p) = Ok (VList [VStr "1"])).
Proof.
  split; [|split]; eexists; repeat split; reflexivity.
Qed.

(** ** Files *)

Lemma read_write_eq p c w : read (write p c w) p = Some c.
Proof. destruct p; simpl; apply lookup_insert_eq. Qed.

Lemma read_record_call c w p : read (record_call c w) p = read w p.
Proof. by destruct p. Qed.

Lemma read_write_ne p q c w : p ≠ q → read (write p c w) q = read w q.
Proof.
  intros Hne. destruct p, q; simpl; try done;
    apply lookup_insert_ne; congruence.
Qed.

Lemma yielded_jsonl_lines_Some items :
  yielded (jsonl_lines (Some <$> items)) = items.
Proof. induction items as [|item items IH]; csimpl; [done|]. by rewrite IH. Qed.

Lemma gen_end_jsonl_lines_Some items :
  gen_end (jsonl_lines (Some <$> items)) = Ok ().
Proof. induction items as [|item items IH]; csimpl; done. Qed.

Lemma count_items_jsonl_lines lines n :
  count_items (jsonl_lines lines) n =
  if bool_decide (Forall is_Some lines) then Ok (n + Z.of_nat (length lines))%Z
  else Raise DecodeError.
Proof.
  revert n.
  induction lines as [|[item|] lines IH]; intros n; cbn [jsonl_lines count_items].
  - rewrite bool_decide_eq_true_2 by constructor. simpl. f_equal. lia.
  - rewrite IH.
    assert (bool_decide (Forall is_Some (Some item :: lines))
            = bool_decide (Forall is_Some lines)) as ->.
    { apply bool_decide_ext. split; [by inversion 1|].
      intros H. constructor; [by eexists|done]. }
    destruct (bool_decide (Forall is_Some lines)); [|done].
    cbn [length]. f_equal. lia.
  - rewrite bool_decide_eq_false_2; [done|].
    intros H. inversion H as [|? ? Hnone _]. by destruct Hnone.
Qed.

Lemma ProductDataset_stream_read w p :
  ProductDataset.stream w p = jsonl_iter w p.
Proof. unfold ProductDataset.stream, gzip_jsonl_iter. by destruct (endswith _ _). Qed.

(** ** Minification *)

Lemma dict_keys_set k v d k' :
  k' ∈ dict_keys (dict_set k v d) → k' = k ∨ k' ∈ dict_keys d.
Proof.
  unfold dict_keys. induction d as [|[k0 v0] d IH]; simpl.
  - intros ->%list_elem_of_singleton. by left.
  - destruct (String.eqb k k0) eqn:E; simpl.
    + apply String.eqb_eq in E as <-.
      intros [->|H]%elem_of_cons; [by left|]. right. by right.
    + intros [->|H]%elem_of_cons; [right; by left|].
      destruct (IH H) as [->|H']; [by left|]. right. by right.
Qed.

Lemma dict_keys_of_pairs_acc pairs acc k :
  k ∈ dict_keys (fold_left (λ acc kv, dict_set kv.1 kv.2 acc) pairs acc) →
  k ∈ dict_keys acc ∨ k ∈ pairs.*1.
Proof.
  revert acc. induction pairs as [|[k0 v0] pairs IH]; intros acc; simpl.
  - by left.
  - intros H. destruct (IH _ H) as [H'|H'].
    + apply dict_keys_set in H' as [->|H']; [right; by left|by left].
    + right. by right.
Qed.

Lemma minified_item_keys item k :
  k ∈ dict_keys (minified_item item) → k ∈ get_fields ∧ k ∈ dict_keys item.
Proof.
  unfold minified_item, dict_of_pairs. intros H.
  apply dict_keys_of_pairs_acc in H as [H|H]; [by apply elem_of_nil in H|].
  apply list_elem_of_fmap in H as [[k0 v0] [-> H]].
  apply list_elem_of_In, filter_In in H as [Hin Hk]. simpl in *.
  split; [by apply bool_decide_eq_true in Hk|].
  apply list_elem_of_fmap. exists (k0, v0). split; [done|].
  by apply list_elem_of_In.
Qed.

(** Every whitelisted field is the source key of a [Product] attribute other
    than [image_ids]. *)
Lemma get_fields_are_attributes k :
  k ∈ get_fields →
  ∃ attribute,
    attribute ∈ slots ∧ attribute ≠ "image_ids" ∧ source_key attribute = k.
Proof.
  unfold get_fields. intros H.
  exists (if String.eqb k "code" then "barcode" else k).
  repeat (apply elem_of_cons in H as [->|H];
          [simpl; split; [unfold slots; set_solver|split; [done|reflexivity]]|]).
  by apply elem_of_nil in H.
Qed.

(** C3. Minifying a snapshot writes one record for each record read, in
    order, and each written record has only whitelisted keys, which are source
    keys of [Product] attributes other than [image_ids]; a snapshot that
    decodes end to end is minified without error and row for row. *)
Theorem minify_product_dataset_rows_and_keys (w : world)
    (dataset_path output_path : path) (lines : list (option JSONType)) :
  dataset_path ≠ output_path →
  read w dataset_path = Some (Jsonl lines) →
  let result := minify_product_dataset dataset_path output_path w in
  let records := yielded (jsonl_lines lines) in
  ∃ out,
    read result.2 output_path = Some (Jsonl (Some <$> out)) ∧
    out = minified_item <$> records ∧
    length out = length records ∧
    (∀ items, lines = Some <$> items →
       result.1 = Ok () ∧ length out = length items) ∧
    (∀ record k, record ∈ out → k ∈ dict_keys record →
       k ∈ get_fields ∧
       ∃ attribute,
         attribute ∈ slots ∧ attribute ≠ "image_ids" ∧ source_key attribute = k).
Proof.
  intros Hne Hread result records.
  set (w1 := write output_path (Jsonl []) (record_call (OpenWrite output_path) w)).
  assert (jsonl_iter w1 dataset_path = jsonl_lines lines) as Hiter.
  { unfold jsonl_iter, w1.
    rewrite read_write_ne, read_record_call by done. by rewrite Hread. }
  exists (minified_item <$> records).
  subst result. unfold minify_product_dataset, gzip_jsonl_iter. simpl.
  fold w1.
  assert ((if endswith (path_str dataset_path) ".gz"
           then jsonl_iter w1 dataset_path
           else jsonl_iter w1 dataset_path)
          = jsonl_lines lines) as -> by (by destruct (endswith _ _)).
  rewrite read_write_eq. fold records.
  split; [by rewrite <- list_fmap_compose|].
  split; [done|]. split; [by rewrite length_fmap|]. split.
  - intros items ->. subst records.
    rewrite gen_end_jsonl_lines_Some, length_fmap, yielded_jsonl_lines_Some.
    done.
  - intros record k [item [-> _]]%list_elem_of_fmap Hk.
    apply minified_item_keys in Hk as [Hk _].
    split; [done|]. by apply get_fields_are_attributes.
Qed.

Lemma minify_product_dataset_rows_and_keys_witness :
  ∃ out,
    read (minify_product_dataset (Abs "/data/products.jsonl.gz")
            (Abs "/data/products-min.jsonl.gz")
            (write (Abs "/data/products.jsonl.gz")
               (Jsonl [Some late_product; Some french_product]) sample_world)).2
         (Abs "/data/products-min.jsonl.gz")
    = Some (Jsonl (Some <$> out)) ∧
    out = [[("code", VStr "1")];
           [("code", VStr "1"); ("countries_tags", VList [VStr "fr"]);
            ("lang", VStr "fr")]].
Proof.
  destruct (minify_product_dataset_rows_and_keys
              (write (Abs "/data/products.jsonl.gz")
                 (Jsonl [Some late_product; Some french_product]) sample_world)
              (Abs "/data/products.jsonl.gz") (Abs "/data/products-min.jsonl.gz")
              [Some late_product; Some french_product])
    as (out & Hread & Hout & _); [discriminate|apply read_write_eq|].
  exists out. split; [exact Hread|]. rewrite Hout. reflexivity.
Defined.

(** ** Validation and the refresh cycle *)

Lemma is_valid_dataset_Jsonl settings w p lines :
  read w p = Some (Jsonl lines) →
  is_valid_dataset settings w p =
  bool_decide (Forall is_Some lines) &&
  (DATASET_CHECK_MIN_PRODUCT_COUNT settings <=? Z.of_nat (length lines))%Z.
Proof.
  intros Hread. unfold is_valid_dataset, ProductDataset.count.
  rewrite ProductDataset_stream_read. unfold jsonl_iter. rewrite Hread.
  rewrite count_items_jsonl_lines.
  destruct (bool_decide (Forall is_Some lines)); simpl; [|done].
  rewrite Z.add_0_l.
  destruct (Z.ltb_spec (Z.of_nat (length lines))
              (DATASET_CHECK_MIN_PRODUCT_COUNT settings));
    symmetry; [apply Z.leb_gt | apply Z.leb_le]; lia.
Qed.

Lemma is_valid_dataset_Text settings w p s :
  read w p = Some (Text s) → is_valid_dataset settings w p = false.
Proof.
  intros Hread. unfold is_valid_dataset, ProductDataset.count.
  rewrite ProductDataset_stream_read. unfold jsonl_iter. by rewrite Hread.
Qed.

(** C4. When the downloaded file does not pass validation (a line fails to
    decode, the file is not a snapshot, or it has fewer records than the
    configured minimum) [fetch_dataset] returns [False] without raising, and
    every installed file is as before: the snapshot, the minified snapshot and
    the token.  The cycle has made the HTTP request and written the temporary
    file, and nothing else. *)
Theorem fetch_dataset_invalid_download settings minify (w : world) response :
  http w (JSONL_DATASET_URL settings) = Ok response →
  match raw response with
  | Jsonl lines =>
      None ∈ lines ∨
      (Z.of_nat (length lines) < DATASET_CHECK_MIN_PRODUCT_COUNT settings)%Z
  | Text _ => True
  end →
  let result := fetch_dataset settings minify w in
  result.1 = Ok false ∧
  files result.2 = files w ∧
  get_product_dataset_etag settings result.2 = get_product_dataset_etag settings w ∧
  calls result.2 =
    calls w ++ [ HttpGet (JSONL_DATASET_URL settings);
                 OpenWrite (InTmp "products.jsonl.gz") ].
Proof.
  intros Hhttp Hbad result. subst result.
  unfold fetch_dataset, with_TemporaryDirectory, mbind, io_bind, download_dataset.
  cbn [http set_tmpdir]. rewrite Hhttp. unfold io_get.
  match goal with
  | |- context [is_valid_dataset settings ?w1 ?p] =>
      assert (is_valid_dataset settings w1 p = false) as ->
  end.
  { destruct (raw response) as [lines|s] eqn:Hraw.
    - rewrite (is_valid_dataset_Jsonl _ _ _ lines) by apply read_write_eq.
      destruct Hbad as [Hnone|Hshort].
      + rewrite bool_decide_eq_false_2; [done|].
        intros Hall. apply list_elem_of_In in Hnone.
        eapply List.Forall_forall in Hall; [|exact Hnone].
        by destruct Hall.
      + apply andb_false_iff. right. apply Z.leb_gt. lia.
    - by rewrite (is_valid_dataset_Text _ _ _ s) by apply read_write_eq. }
  repeat split; [done..|]. cbn. by rewrite <- (assoc_L (++)).
Qed.

Lemma fetch_dataset_invalid_download_witness :
  (fetch_dataset sample_settings true broken_world).1 = Ok false ∧
  files (fetch_dataset sample_settings true broken_world).2 = installed_files.
Proof.
  destruct (fetch_dataset_invalid_download sample_settings true broken_world
              {| ETag := Some "v2"; raw := Jsonl [Some french_product; None] |})
    as (Hr & Hf & _); [reflexivity|left; simpl; repeat constructor|].
  split; [exact Hr|exact Hf].
Defined.

(** The steps of a cycle that succeed. *)

Lemma minify_product_dataset_Ok w dataset_path output_path items :
  dataset_path ≠ output_path →
  read w dataset_path = Some (Jsonl (Some <$> items)) →
  minify_product_dataset dataset_path output_path w =
  (Ok (), write output_path (Jsonl (Some <$> (minified_item <$> items)))
            (write output_path (Jsonl [])
               (record_call (OpenWrite output_path) w))).
Proof.
  intros Hne Hread. unfold minify_product_dataset, gzip_jsonl_iter.
  assert (jsonl_iter (write output_path (Jsonl [])
                        (record_call (OpenWrite output_path) w)) dataset_path
          = jsonl_lines (Some <$> items)) as Hiter.
  { unfold jsonl_iter. rewrite read_write_ne, read_record_call by done.
    by rewrite Hread. }
  destruct (endswith _ _); rewrite Hiter, gen_end_jsonl_lines_Some,
    yielded_jsonl_lines_Some; by rewrite <- list_fmap_compose.
Qed.

Lemma shutil_copy_Ok w src dst c :
  read w src = Some c →
  shutil_copy src dst w = (Ok (), write dst c (record_call (ShutilCopy src dst) w)).
Proof. intros Hread. unfold shutil_copy. by rewrite Hread. Qed.

Lemma download_dataset_Ok settings w output_path response :
  http w (JSONL_DATASET_URL settings) = Ok response →
  download_dataset settings output_path w =
  (Ok (strip quotes (default "" (ETag response))),
   write output_path (raw response)
     (record_call (OpenWrite output_path)
        (record_call (HttpGet (JSONL_DATASET_URL settings)) w))).
Proof. intros Hhttp. unfold download_dataset. by rewrite Hhttp. Qed.

(** X18. A download that decodes end to end and has the minimum number of
    records is installed: the snapshot is copied, then its minified form, then
    the token of the download is written. *)
Lemma fetch_dataset_valid_download settings (w : world) response items :
  http w (JSONL_DATASET_URL settings) = Ok response →
  raw response = Jsonl (Some <$> items) →
  (DATASET_CHECK_MIN_PRODUCT_COUNT settings ≤ Z.of_nat (length items))%Z →
  let result := fetch_dataset settings true w in
  result.1 = Ok true ∧
  calls result.2 =
    calls w ++
    [ HttpGet (JSONL_DATASET_URL settings);
      OpenWrite (InTmp "products.jsonl.gz");
      OpenWrite (InTmp "products-min.jsonl.gz");
      ShutilCopy (InTmp "products.jsonl.gz") (Abs (JSONL_DATASET_PATH settings));
      ShutilCopy (InTmp "products-min.jsonl.gz")
                 (Abs (JSONL_MIN_DATASET_PATH settings));
      OpenWrite (Abs (JSONL_DATASET_ETAG_PATH settings)) ] ∧
  files result.2 =
    <[JSONL_DATASET_ETAG_PATH settings :=
        Text (strip quotes (default "" (ETag response)))]>
      (<[JSONL_MIN_DATASET_PATH settings :=
           Jsonl (Some <$> (minified_item <$> items))]>
         (<[JSONL_DATASET_PATH settings := Jsonl (Some <$> items)]> (files w))).
Proof.
  intros Hhttp Hraw Hmin result. subst result.
  unfold fetch_dataset, with_TemporaryDirectory, mbind, io_bind.
  rewrite (download_dataset_Ok _ _ _ response) by done.
  rewrite Hraw. unfold io_get.
  rewrite (is_valid_dataset_Jsonl _ _ _ (Some <$> items)) by apply read_write_eq.
  rewrite bool_decide_eq_true_2
    by (apply Forall_fmap, Forall_true; intros item; by eexists).
  rewrite length_fmap, (proj2 (Z.leb_le _ _) Hmin). cbn [andb negb].
  rewrite (minify_product_dataset_Ok _ _ _ items)
    by (done || apply read_write_eq).
  rewrite (shutil_copy_Ok _ _ _ (Jsonl (Some <$> items)))
    by (rewrite !read_write_ne, read_record_call by done; apply read_write_eq).
  rewrite (shutil_copy_Ok _ _ _ (Jsonl (Some <$> (minified_item <$> items))))
    by (rewrite read_write_ne, read_record_call by done; apply read_write_eq).
  unfold save_product_dataset_etag, io_modify. cbn [fst snd].
  split; [done|]. split.
  - cbn. by rewrite <- !(assoc_L (++)).
  - done.
Qed.

(** C5. On a download that passes validation, [fetch_dataset] installs the
    snapshot and the minified snapshot by two calls of [shutil.copy] onto the
    installed paths, one after the other, and then writes the token; it
    performs no rename or move. *)
Theorem fetch_dataset_installs_by_copy :
  let result := fetch_dataset sample_settings true sample_world in
  result.1 = Ok true ∧
  calls result.2 =
    [ HttpGet "https://static.example.org/products.jsonl.gz";
      OpenWrite (InTmp "products.jsonl.gz");
      OpenWrite (InTmp "products-min.jsonl.gz");
      ShutilCopy (InTmp "products.jsonl.gz") (Abs "/data/products.jsonl.gz");
      ShutilCopy (InTmp "products-min.jsonl.gz")
                 (Abs "/data/products-min.jsonl.gz");
      OpenWrite (Abs "/data/products-etag.txt") ] ∧
  files result.2 !! "/data/products.jsonl.gz"
    = Some (Jsonl [Some french_product; Some german_product]) ∧
  files result.2 !! "/data/products-etag.txt" = Some (Text "v2").
Proof. vm_compute. done. Qed.

(** ** The snapshot store *)

Lemma to_list_stream_of_list {A} (s : stream A) items :
  to_list s = Ok items → s = stream_of_list items.
Proof.
  revert items. induction s as [|a s IH|e]; simpl; intros items.
  - by intros [= <-].
  - destruct (to_list s) as [l|e]; simpl; [|done].
    intros [= <-]. simpl. f_equal. by apply IH.
  - done.
Qed.

Lemma gen_map_stream_of_list {A B} (f : A → except B) items results :
  Forall2 (λ a b, f a = Ok b) items results →
  gen_map f (stream_of_list items) = stream_of_list results.
Proof. induction 1 as [|a b items results Hab _ IH]; simpl; [done|]. by rewrite Hab, IH. Qed.

Lemma key_of_Some product k :
  key_of product = Some k →
  py_bool (barcode product) = true ∧ py_hash (barcode product) = Ok k.
Proof.
  unfold key_of. destruct (py_bool _); [|done].
  destruct (py_hash _); [|done]. by intros [= ->].
Qed.

Lemma fill_stream_of_list products (m : gmap hkey Product) :
  Forall (λ product,
            py_bool (barcode product) = true → is_Ok (py_hash (barcode product)))
         products →
  ∃ m',
    MemoryProductStore.fill (stream_of_list products) m = Ok m' ∧
    (∀ k, m' !! k = match list.last (List.filter (has_key k) products) with
                    | Some product => Some product
                    | None => m !! k
                    end) ∧
    dom m' =@{gset hkey} dom m ∪ list_to_set (omap key_of products).
Proof.
  intros Hall. revert m.
  induction Hall as [|product products Hp _ IH]; intros m.
  - exists m. simpl. split; [done|]. split; [done|].
    by rewrite ?list_to_set_nil, (right_id_L ∅ (∪)).
  - cbn [stream_of_list MemoryProductStore.fill].
    destruct (py_bool (barcode product)) eqn:Hb.
    + destruct (Hp eq_refl) as [k0 Hk0]. rewrite Hk0. simpl.
      assert (key_of product = Some k0) as Hkey
        by (unfold key_of; by rewrite Hb, Hk0).
      destruct (IH (<[k0 := product]> m)) as (m' & Hfill & Hlook & Hdom).
      exists m'. split; [done|]. split.
      * intros k. rewrite Hlook. cbn [List.filter]. unfold has_key at 2.
        rewrite Hkey. destruct (decide (k0 = k)) as [->|Hne].
        -- rewrite bool_decide_eq_true_2 by done. rewrite last_cons.
           destruct (list.last _); [done|]. apply lookup_insert_eq.
        -- rewrite bool_decide_eq_false_2 by congruence.
           destruct (list.last _); [done|]. by apply lookup_insert_ne.
      * rewrite Hdom, dom_insert_L. cbn [omap list_omap]. rewrite Hkey.
        rewrite list_to_set_cons.
        by rewrite (comm_L (∪) {[k0]} (dom m)), (assoc_L (∪)).
    + assert (key_of product = None) as Hkey by (unfold key_of; by rewrite Hb).
      destruct (IH m) as (m' & Hfill & Hlook & Hdom).
      exists m'. split; [done|]. split.
      * intros k. rewrite Hlook. cbn [List.filter]. unfold has_key at 2.
        rewrite Hkey. by rewrite bool_decide_eq_false_2 by done.
      * rewrite Hdom. cbn [omap list_omap]. by rewrite Hkey.
Qed.

(** C10. Building a snapshot store from a snapshot that reads end to end, and
    whose records give Records with hashable barcodes, succeeds; under each
    key the store holds the Record of the last record in file order that
    carries that key, and its size is the number of distinct keys. *)
Theorem load_from_path_last_wins (w : world) (path : path) projection
    (items : list JSONType) (products : list Product) :
  (∀ fields, projection = Some fields → "code" ∈ fields) →
  to_list (ProductDataset.stream w path) = Ok items →
  Forall2 (λ item product,
             projected_item projection item ≫= Product_init = Ok product)
          items products →
  Forall (λ product,
            py_bool (barcode product) = true → is_Ok (py_hash (barcode product)))
         products →
  ∃ st,
    MemoryProductStore.load_from_path w path projection = Ok st ∧
    (∀ k, MemoryProductStore.store st !! k
          = list.last (List.filter (has_key k) products)) ∧
    MemoryProductStore.len st = length (remove_dups (omap key_of products)).
Proof.
  intros Hproj Hread Hbuild Hhash.
  destruct (fill_stream_of_list products ∅ Hhash) as (m & Hfill & Hlook & Hdom).
  exists {| MemoryProductStore.store := m |}.
  split; [|split].
  - unfold MemoryProductStore.load_from_path.
    assert ((match projection with
             | Some fields =>
                 if bool_decide ("code" ∈ fields) then Ok () else Raise ValueError
             | None => Ok ()
             end) = Ok ()) as ->.
    { destruct projection as [fields|]; [|done].
      by rewrite bool_decide_eq_true_2 by auto. }
    simpl. unfold iter_product_by.
    rewrite (to_list_stream_of_list _ _ Hread).
    rewrite (gen_map_stream_of_list _ _ _ Hbuild).
    by rewrite Hfill.
  - intros k. simpl. rewrite Hlook, lookup_empty.
    by destruct (list.last _).
  - unfold MemoryProductStore.len. simpl.
    rewrite <- (size_dom (D:=gset hkey) m), Hdom, dom_empty_L, (left_id_L ∅ (∪)).
    rewrite <- (size_list_to_set (C:=gset hkey) (remove_dups _))
      by apply NoDup_remove_dups.
    f_equal. apply set_eq. intros k.
    by rewrite !elem_of_list_to_set, elem_of_remove_dups.
Qed.

Lemma load_from_path_last_wins_witness :
  ∃ st,
    MemoryProductStore.load_from_path repeated_world
      (Abs "/data/products-min.jsonl.gz") None = Ok st ∧
    lang <$> MemoryProductStore.store st !! KStr "1" = Some (VStr "de") ∧
    MemoryProductStore.len st = 2.
Proof.
  destruct (load_from_path_last_wins repeated_world
              (Abs "/data/products-min.jsonl.gz") None
              repeated_items repeated_products)
    as (st & Hload & Hlook & Hlen).
  - discriminate.
  - reflexivity.
  - repeat constructor.
  - repeat constructor; intros _; eexists; reflexivity.
  - exists st. split; [exact Hload|]. split.
    + rewrite Hlook. reflexivity.
    + rewrite Hlen. reflexivity.
Defined.


(** * Further properties *)

(** ** Image paths *)

(** X1. An image path is valid for a product exactly when [get_image_id]
    gives it an identifier and that identifier is a key of the product's
    images. *)
Theorem is_valid_image_iff (images : JSONType) (image_path : string) :
  is_valid_image images image_path = true ↔
  ∃ image_id,
    get_image_id image_path = Some image_id ∧
    dict_contains image_id images = true.
Proof.
  unfold is_valid_image, get_image_id.
  destruct (isdigit (stem image_path)); simpl.
  - split; [eauto|]. by intros (image_id & [= <-] & H).
  - split; [done|]. by intros (image_id & [=] & _).
Qed.

Lemma special_image_loop_sound str items image_id image_type lang :
  special_image_loop str items image_id image_type lang = Ok true →
  ∃ image_key fields,
    (image_key, VDict fields) ∈ items ∧
    String.prefix image_type image_key = true ∧
    str (get fields "imgid") = image_id ∧
    ∀ l, lang = Some l → endswith image_key ("_" +:+ l) = true.
Proof.
  induction items as [|[image_key image_data] items IH]; simpl; [done|].
  assert (special_image_loop str items image_id image_type lang = Ok true →
          ∃ image_key0 fields,
            (image_key0, VDict fields) ∈ (image_key, image_data) :: items ∧
            String.prefix image_type image_key0 = true ∧
            str (get fields "imgid") = image_id ∧
            ∀ l, lang = Some l → endswith image_key0 ("_" +:+ l) = true) as IH'.
  { intros H. destruct (IH H) as (k & f & Hin & Hrest).
    exists k, f. split; [by right|done]. }
  destruct (String.prefix image_type image_key) eqn:Hprefix; [|done].
  destruct image_data as [| | | | |fields]; try done.
  destruct (String.eqb (str (get fields "imgid")) image_id) eqn:Hid; [|done].
  apply String.eqb_eq in Hid.
  destruct lang as [l|].
  - destruct (endswith image_key ("_" +:+ l)) eqn:Hlang; [|done].
    intros _. exists image_key, fields. split; [by left|].
    repeat split; [done..|]. by intros ? [= <-].
  - intros _. exists image_key, fields. split; [by left|].
    repeat split; done.
Qed.

(** X2. [is_special_image] answers [True] only for a valid image to which an
    entry of the images refers: an entry whose key starts with the image type
    (and ends with the language, when one is given) and whose [imgid] prints
    as the image identifier. *)
Theorem is_special_image_sound str (images : JSONType) image_path image_type lang :
  is_special_image str images image_path image_type lang = Ok true →
  is_valid_image images image_path = true ∧
  ∃ image_key fields,
    (image_key, VDict fields) ∈ images ∧
    String.prefix image_type image_key = true ∧
    str (get fields "imgid") = stem image_path ∧
    ∀ l, lang = Some l → endswith image_key ("_" +:+ l) = true.
Proof.
  unfold is_special_image.
  destruct (is_valid_image images image_path); simpl; [|done].
  intros H. split; [done|]. by apply special_image_loop_sound.
Qed.

Lemma is_special_image_sound_witness :
  is_special_image text_of sample_images "/301/762/042/2003/2.jpg"
    "nutrition" (Some "fr") = Ok true ∧
  is_valid_image sample_images "/301/762/042/2003/2.jpg" = true.
Proof.
  split; [reflexivity|].
  apply (is_special_image_sound text_of sample_images
           "/301/762/042/2003/2.jpg" "nutrition" (Some "fr")).
  reflexivity.
Defined.

Lemma special_image_loop_any_lang str items image_id image_type l :
  special_image_loop str items image_id image_type (Some l) = Ok true →
  special_image_loop str items image_id image_type None = Ok true.
Proof.
  induction items as [|[image_key image_data] items IH]; simpl; [done|].
  destruct (String.prefix image_type image_key); [|done].
  destruct image_data as [| | | | |fields]; try done.
  destruct (String.eqb (str (get fields "imgid")) image_id); done.
Qed.

(** X3. An image that is the special image of its type for some language is
    the special image of that type when no language is asked for. *)
Theorem is_special_image_any_lang str (images : JSONType) image_path image_type l :
  is_special_image str images image_path image_type (Some l) = Ok true →
  is_special_image str images image_path image_type None = Ok true.
Proof.
  unfold is_special_image.
  destruct (is_valid_image images image_path); simpl; [|done].
  apply special_image_loop_any_lang.
Qed.

Lemma is_special_image_any_lang_witness :
  is_special_image text_of sample_images "/301/762/042/2003/1.jpg"
    "front" None = Ok true.
Proof.
  apply (is_special_image_any_lang text_of sample_images
           "/301/762/042/2003/1.jpg" "front" "en").
  reflexivity.
Defined.

Lemma prefix_app_l (a b s : string) :
  String.prefix (a +:+ b) s = true → String.prefix a s = true.
Proof.
  revert s. induction a as [|c a IH]; intros s.
  - by destruct s.
  - destruct s as [|c' s]; [done|].
    change (String c a +:+ b) with (String c (a +:+ b)). cbn [String.prefix].
    destruct (Ascii.ascii_dec c c'); [apply IH|done].
Qed.

Lemma prefix_app_app (a b c s : string) :
  String.prefix (a +:+ b +:+ c) s = true → String.prefix (a +:+ b) s = true.
Proof.
  revert s. induction a as [|x a IH]; intros s.
  - change (String.prefix (b +:+ c) s = true → String.prefix b s = true).
    apply prefix_app_l.
  - destruct s as [|x' s]; [done|].
    change (String x a +:+ b +:+ c) with (String x (a +:+ b +:+ c)).
    change (String x a +:+ b) with (String x (a +:+ b)). cbn [String.prefix].
    destruct (Ascii.ascii_dec x x'); [apply IH|done].
Qed.

(** X4. A product that has a special image of some kind for a language has
    a special image of that kind. *)
Theorem has_special_image_any_lang (images : JSONType) key l :
  has_special_image images key (Some l) = true →
  has_special_image images key None = true.
Proof.
  unfold has_special_image, special_field_name.
  rewrite !existsb_exists. intros (image_key & Hin & Hprefix).
  exists image_key. split; [done|]. by apply prefix_app_app in Hprefix.
Qed.

Lemma has_special_image_any_lang_witness :
  has_special_image sample_images "nutrition" None = true.
Proof.
  apply (has_special_image_any_lang sample_images "nutrition" "fr").
  reflexivity.
Defined.

(** ** Taking and counting *)

Lemma take_from_yielded {A} (s : stream A) (i count : Z) :
  yielded (take_from i count s) = firstn (Z.to_nat (count - i)) (yielded s).
Proof.
  revert i. induction s as [|item s IH|e]; intros i; simpl.
  - by rewrite firstn_nil.
  - destruct (Z.leb_spec count i) as [Hle|Hlt].
    + by replace (Z.to_nat (count - i)) with 0 by lia.
    + replace (Z.to_nat (count - i)) with (S (Z.to_nat (count - (i + 1)))) by lia.
      simpl. by rewrite IH.
  - by rewrite firstn_nil.
Qed.

Lemma take_from_end {A} (s : stream A) (i count : Z) :
  gen_end (take_from i count s) =
  if decide (Z.to_nat (count - i) < length (yielded s)) then Ok () else gen_end s.
Proof.
  revert i.
  induction s as [|item s IH|e]; intros i; cbn [take_from yielded gen_end length].
  - by case_decide.
  - destruct (Z.leb_spec count i) as [Hle|Hlt]; cbn [gen_end].
    + rewrite decide_True; [done|lia].
    + rewrite IH.
      replace (Z.to_nat (count - i)) with (S (Z.to_nat (count - (i + 1)))) by lia.
      repeat case_decide; (done || lia).
  - case_decide; [lia|done].
Qed.

(** X5. [take(count)] yields the first [count] items of its source, in
    order, and nothing for a count of zero or less.  It ends normally when
    the source has more items than that, without reaching what comes later;
    otherwise it ends as the source ends, so an exception that the source
    raises right after its [count]-th item surfaces from [take] too. *)
Theorem take_first_items {A} (self : stream A) (count : Z) :
  yielded (take self count) = firstn (Z.to_nat count) (yielded self) ∧
  length (yielded (take self count)) ≤ Z.to_nat count ∧
  gen_end (take self count) =
    if decide (Z.to_nat count < length (yielded self)) then Ok ()
    else gen_end self.
Proof.
  unfold take. rewrite take_from_yielded, take_from_end, Z.sub_0_r.
  split; [done|]. split; [|done].
  rewrite length_firstn. lia.
Qed.

Lemma count_items_to_list {A} (s : stream A) (n : Z) :
  count_items s n = (λ l, (n + Z.of_nat (length l))%Z) <$> to_list s.
Proof.
  revert n. induction s as [|a s IH|e]; intros n; simpl.
  - unfold fmap, except_fmap. f_equal. simpl. lia.
  - rewrite IH. destruct (to_list s) as [l|e]; simpl; [|done].
    unfold fmap, except_fmap. f_equal. simpl. lia.
  - done.
Qed.

(** X6. The count of a dataset is the number of records that collecting its
    stream returns, and counting raises exactly what collecting raises. *)
Theorem count_is_length_of_collect (w : world) (jsonl_path : path) :
  ProductDataset.count w jsonl_path =
  (λ l, Z.of_nat (length l)) <$>
    ProductStream.collect (ProductDataset.stream w jsonl_path).
Proof.
  unfold ProductDataset.count, ProductStream.collect.
  rewrite count_items_to_list.
  by destruct (to_list (ProductDataset.stream w jsonl_path)).
Qed.

(** ** Operator names *)

(** X7. [get_from_string] returns an operator exactly for that operator's
    name; on any other string it raises [ValueError], and so does
    [filter_number_field], when it is called and not when its stream is
    consumed. *)
Theorem get_from_string_names (value : string) :
  (∀ op, ComparisonOperator.get_from_string value = Ok op ↔
         ComparisonOperator.name op = value) ∧
  ((∀ op, ComparisonOperator.name op ≠ value) →
   ComparisonOperator.get_from_string value = Raise ValueError ∧
   ∀ (self : ProductStream) field ref dflt,
     ProductStream.filter_number_field self field ref dflt value
     = Raise ValueError).
Proof.
  assert (∀ op, ComparisonOperator.get_from_string value = Ok op →
                ComparisonOperator.name op = value) as Hname.
  { intros op. unfold ComparisonOperator.get_from_string.
    cbn [List.find ComparisonOperator.name].
    repeat (match goal with
            | |- context [String.eqb ?a value] =>
                destruct (String.eqb a value) eqn:?;
                [match goal with
                 | H : String.eqb _ value = true |- _ =>
                     apply String.eqb_eq in H
                 end; by intros [= <-]|]
            end).
    done. }
  split.
  - intros op. split; [apply Hname|]. intros <-. by destruct op.
  - intros Hnone.
    assert (ComparisonOperator.get_from_string value = Raise ValueError) as Hraise.
    { destruct (ComparisonOperator.get_from_string value) as [op|e] eqn:E.
      - destruct (Hnone op). by apply Hname.
      - unfold ComparisonOperator.get_from_string in E.
        by destruct (List.find _ _); simplify_eq. }
    split; [done|]. intros self field ref dflt.
    unfold ProductStream.filter_number_field. by rewrite Hraise.
Qed.

Lemma get_from_string_names_witness :
  ProductStream.filter_number_field (stream_of_list [bare_product])
    "unique_scans_n" (VInt 10) (VInt 0) "ge" = Raise ValueError.
Proof.
  apply (proj2 (get_from_string_names "ge")). by intros [].
Defined.

(** ** Filters *)

Lemma gen_if_idempotent {A} (p : A → except bool) (s : stream A) :
  gen_if p (gen_if p s) = gen_if p s.
Proof.
  induction s as [|a s IH|e]; simpl; [done| |done].
  destruct (p a) as [[]|e] eqn:Hp; simpl; rewrite ?Hp, ?IH; done.
Qed.

(** X9. Every filter stage is idempotent: applying it a second time, with
    the same arguments, changes neither the records kept nor the way the
    stream ends. *)
Theorem filters_idempotent (self : ProductStream) :
  (∀ tag, ProductStream.filter_by_country_tag
            (ProductStream.filter_by_country_tag self tag) tag
          = ProductStream.filter_by_country_tag self tag) ∧
  (∀ tag, ProductStream.filter_by_state_tag
            (ProductStream.filter_by_state_tag self tag) tag
          = ProductStream.filter_by_state_tag self tag) ∧
  (∀ field value,
     ProductStream.filter_text_field
       (ProductStream.filter_text_field self field value) field value
     = ProductStream.filter_text_field self field value) ∧
  (∀ field ref dflt operator,
     (ProductStream.filter_number_field self field ref dflt operator ≫=
        λ once, ProductStream.filter_number_field once field ref dflt operator)
     = ProductStream.filter_number_field self field ref dflt operator) ∧
  (∀ field,
     ProductStream.filter_nonempty_text_field
       (ProductStream.filter_nonempty_text_field self field) field
     = ProductStream.filter_nonempty_text_field self field) ∧
  (∀ field,
     ProductStream.filter_empty_text_field
       (ProductStream.filter_empty_text_field self field) field
     = ProductStream.filter_empty_text_field self field) ∧
  (∀ field,
     ProductStream.filter_nonempty_tag_field
       (ProductStream.filter_nonempty_tag_field self field) field
     = ProductStream.filter_nonempty_tag_field self field) ∧
  (∀ field,
     ProductStream.filter_empty_tag_field
       (ProductStream.filter_empty_tag_field self field) field
     = ProductStream.filter_empty_tag_field self field) ∧
  (∀ from_t to_t,
     (ProductStream.filter_by_modified_datetime self from_t to_t ≫=
        λ once, ProductStream.filter_by_modified_datetime once from_t to_t)
     = ProductStream.filter_by_modified_datetime self from_t to_t).
Proof.
  repeat split; intros; try apply gen_if_idempotent.
  - unfold ProductStream.filter_number_field.
    destruct (ComparisonOperator.get_from_string operator) as [op|e]; simpl;
      [|done].
    by rewrite gen_if_idempotent.
  - destruct from_t, to_t; simpl; by rewrite ?gen_if_idempotent.
Qed.

Lemma filter_negb_partition {A} (p : A → bool) (l : list A) :
  List.filter p l ++ List.filter (λ a, negb (p a)) l ≡ₚ l.
Proof.
  induction l as [|a l IH]; simpl; [done|].
  destruct (p a); simpl.
  - by rewrite IH.
  - by rewrite <- Permutation_middle, IH.
Qed.

Lemma filter_negb_disjoint {A} (p : A → bool) (l : list A) (a : A) :
  a ∈ List.filter p l → a ∈ List.filter (λ a, negb (p a)) l → False.
Proof.
  intros [_ H1]%list_elem_of_In%filter_In [_ H2]%list_elem_of_In%filter_In.
  by rewrite H1 in H2.
Qed.

(** X10. The non-empty and the empty filter on a field split a stream: each
    record of the source is kept by exactly one of the two, and both end as
    the source ends.  This holds for the text pair and for the tag pair. *)
Theorem empty_and_nonempty_split (self : ProductStream) (field : string) :
  let nonempty_text := ProductStream.filter_nonempty_text_field self field in
  let empty_text := ProductStream.filter_empty_text_field self field in
  let nonempty_tag := ProductStream.filter_nonempty_tag_field self field in
  let empty_tag := ProductStream.filter_empty_tag_field self field in
  (yielded nonempty_text ++ yielded empty_text ≡ₚ yielded self ∧
   (∀ product, product ∈ yielded nonempty_text →
               product ∈ yielded empty_text → False) ∧
   gen_end nonempty_text = gen_end self ∧ gen_end empty_text = gen_end self) ∧
  (yielded nonempty_tag ++ yielded empty_tag ≡ₚ yielded self ∧
   (∀ product, product ∈ yielded nonempty_tag →
               product ∈ yielded empty_tag → False) ∧
   gen_end nonempty_tag = gen_end self ∧ gen_end empty_tag = gen_end self).
Proof.
  cbv zeta.
  unfold ProductStream.filter_nonempty_text_field,
    ProductStream.filter_empty_text_field,
    ProductStream.filter_nonempty_tag_field,
    ProductStream.filter_empty_tag_field.
  rewrite !gen_if_total_yielded, !gen_if_total_end.
  split.
  - split; [|split; [|done]].
    + apply (filter_negb_partition
               (λ product, negb (py_eq (py_or (get product field) (VStr ""))
                                       (VStr "")))).
    + intros product H1 H2.
      apply (filter_negb_disjoint
               (λ product, negb (py_eq (py_or (get product field) (VStr ""))
                                       (VStr ""))) _ _ H1 H2).
  - split; [|split; [|done]].
    + apply (filter_negb_partition
               (λ product, py_bool (py_or (get product field) (VList [])))).
    + intros product H1 H2.
      apply (filter_negb_disjoint
               (λ product, py_bool (py_or (get product field) (VList []))) _ _
               H1 H2).
Qed.

Lemma py_bool_or_VList v : py_bool (py_or v (VList [])) = py_bool v.
Proof. unfold py_or. by destruct (py_bool v) eqn:E. Qed.

Lemma py_eq_or_empty_text v :
  py_eq (py_or v (VStr "")) (VStr "") = negb (py_bool v).
Proof.
  unfold py_or. destruct (py_bool v) eqn:E; [|done].
  destruct (py_eq v (VStr "")) eqn:Heq; [|done].
  apply py_eq_VStr in Heq as ->. done.
Qed.

(** X11. The text filters do not look at the type of the value: a record
    passes [filter_nonempty_text_field] exactly when the value of the field
    is true, whatever it is, so the text pair of filters and the tag pair are
    the same filters. *)
Theorem text_and_tag_emptiness_agree (self : ProductStream) (field : string) :
  ProductStream.filter_nonempty_text_field self field
  = ProductStream.filter_nonempty_tag_field self field ∧
  ProductStream.filter_empty_text_field self field
  = ProductStream.filter_empty_tag_field self field ∧
  yielded (ProductStream.filter_nonempty_text_field self field)
  = List.filter (λ product, py_bool (get product field)) (yielded self).
Proof.
  unfold ProductStream.filter_nonempty_text_field,
    ProductStream.filter_empty_text_field,
    ProductStream.filter_nonempty_tag_field,
    ProductStream.filter_empty_tag_field.
  split; [|split].
  - apply gen_if_ext. intros product.
    by rewrite py_eq_or_empty_text, py_bool_or_VList, negb_involutive.
  - apply gen_if_ext. intros product.
    by rewrite py_eq_or_empty_text, py_bool_or_VList, negb_involutive.
  - rewrite gen_if_total_yielded. apply filter_ext. intros product.
    by rewrite py_eq_or_empty_text, negb_involutive.
Qed.

Lemma py_eq_VStr_l tag v : py_eq (VStr tag) v = true ↔ v = VStr tag.
Proof.
  split; [|intros ->; simpl; apply String.eqb_refl].
  destruct v as [|[]|q|t|l|d]; simpl; try discriminate.
  by intros ->%String.eqb_eq.
Qed.

Lemma has_tag_elem_of field tag product tags :
  py_or (get product field) (VList []) = VList tags →
  has_tag field tag product = true ↔ VStr tag ∈ tags.
Proof.
  intros Htags. unfold has_tag. rewrite Htags, existsb_exists. split.
  - intros (v & Hin & ->%py_eq_VStr_l). by apply list_elem_of_In.
  - intros Hin. exists (VStr tag). split; [by apply list_elem_of_In|].
    by apply py_eq_VStr_l.
Qed.

(** X12. On a source whose country tags are, in every record, a list or
    null or absent, [filter_by_country_tag] keeps, in order, exactly the
    records whose list holds the tag as a string, and ends as the source
    ends.  A record whose country tags are a number other than zero makes the
    stream raise [TypeError] when it is reached. *)
Theorem filter_by_country_tag_keeps (self : ProductStream) (country_tag : string) :
  ((∀ product, product ∈ yielded self →
      ∃ tags, py_or (get product "countries_tags") (VList []) = VList tags) →
   yielded (ProductStream.filter_by_country_tag self country_tag)
   = List.filter (has_tag "countries_tags" country_tag) (yielded self) ∧
   gen_end (ProductStream.filter_by_country_tag self country_tag)
   = gen_end self ∧
   ∀ product tags,
     py_or (get product "countries_tags") (VList []) = VList tags →
     (product ∈ yielded (ProductStream.filter_by_country_tag self country_tag)
      ↔ product ∈ yielded self ∧ VStr country_tag ∈ tags)) ∧
  (∀ product q rest,
     get product "countries_tags" = VNum q → q ≠ 0%Qc →
     ProductStream.filter_by_country_tag (SCons product rest) country_tag
     = SRaise TypeError).
Proof.
  split.
  - intros Hlists.
    assert (ProductStream.filter_by_country_tag self country_tag =
            gen_if (λ product, Ok (has_tag "countries_tags" country_tag product))
                   self) as ->.
    { apply gen_if_ext_yielded. intros product Hin.
      destruct (Hlists product Hin) as [tags Htags].
      unfold has_tag. by rewrite Htags. }
    rewrite gen_if_total_yielded, gen_if_total_end.
    split; [done|]. split; [done|].
    intros product tags Htags.
    rewrite <- (has_tag_elem_of "countries_tags" _ _ _ Htags).
    rewrite list_elem_of_In, filter_In, <- list_elem_of_In. done.
  - intros product q rest Hget Hq.
    unfold ProductStream.filter_by_country_tag. simpl.
    rewrite Hget. unfold py_or. simpl.
    by rewrite bool_decide_eq_false_2.
Qed.

Lemma filter_by_country_tag_keeps_witness :
  yielded (ProductStream.filter_by_country_tag
             (stream_of_list [french_product; german_product; bare_product]) "fr")
  = [french_product] ∧
  ProductStream.filter_by_country_tag
    (SCons mistyped_product (stream_of_list [french_product])) "fr"
  = SRaise TypeError.
Proof.
  split.
  - destruct (proj1 (filter_by_country_tag_keeps
                       (stream_of_list [french_product; german_product;
                                        bare_product]) "fr")) as [H _].
    + intros product Hin. simpl in Hin.
      repeat (apply elem_of_cons in Hin as [->|Hin]; [eexists; reflexivity|]).
      by apply elem_of_nil in Hin.
    + rewrite H. reflexivity.
  - apply (proj2 (filter_by_country_tag_keeps
                    (stream_of_list [french_product]) "fr")
             mistyped_product (Qc_of_Z 5)); [reflexivity|discriminate].
Defined.


(** ** Building a Record *)

(** X13. [Product(...)] raises only [AttributeError], and exactly when the
    raw record has no [image_ids] key of its own while its [images] are true
    and not a dict (they have no [keys]); every other record gives a Record. *)
Theorem Product_init_raises (product : JSONType) (e : exn) :
  Product_init product = Raise e ↔
  e = AttributeError ∧
  dict_contains "image_ids" product = false ∧
  py_bool (get product "images") = true ∧
  ∀ d, get product "images" ≠ VDict d.
Proof.
  unfold Product_init_by.
  destruct (dict_contains "image_ids" product); simpl.
  - split; [done|]. by intros (_ & [=] & _).
  - unfold py_or.
    destruct (py_bool (get product "images")) eqn:Hb; simpl.
    + destruct (get product "images") as [|b|q|s|l|d]; simpl;
        try (split; [by intros [= <-]|by intros (-> & _)]).
      split; [done|]. intros (_ & _ & _ & H). by destruct (H d).
    + split; [done|]. by intros (_ & _ & [=] & _).
Qed.

(** ** Minified records *)

Lemma dict_set_fresh k v (d : JSONType) :
  k ∉ dict_keys d → dict_set k v d = d ++ [(k, v)].
Proof.
  unfold dict_keys. induction d as [|[k' v'] d IH]; simpl; [done|].
  intros Hnotin. apply not_elem_of_cons in Hnotin as [Hne Hnotin].
  apply String.eqb_neq in Hne as ->. by rewrite IH.
Qed.

Lemma dict_of_pairs_acc (pairs acc : JSONType) :
  NoDup (dict_keys (acc ++ pairs)) →
  fold_left (λ acc kv, dict_set kv.1 kv.2 acc) pairs acc = acc ++ pairs.
Proof.
  revert acc. induction pairs as [|[k v] pairs IH]; intros acc Hnodup; simpl.
  - by rewrite app_nil_r.
  - assert (k ∉ dict_keys acc) as Hfresh.
    { unfold dict_keys in *. rewrite fmap_app in Hnodup.
      apply list.NoDup_app in Hnodup as (_ & Hdisj & _).
      intros Hin. apply (Hdisj k Hin). simpl. by left. }
    rewrite dict_set_fresh by done.
    rewrite IH; rewrite <- (assoc_L (++)); done.
Qed.

Lemma dict_of_pairs_NoDup (pairs : JSONType) :
  NoDup (dict_keys pairs) → dict_of_pairs pairs = pairs.
Proof. intros H. unfold dict_of_pairs. by rewrite dict_of_pairs_acc. Qed.

Lemma dict_keys_filter_NoDup (P : string * value → bool) (d : JSONType) :
  NoDup (dict_keys d) → NoDup (dict_keys (List.filter P d)).
Proof.
  unfold dict_keys. induction d as [|[k v] d IH]; simpl; [done|].
  intros [Hnotin Hnodup]%list.NoDup_cons.
  destruct (P (k, v)); simpl; [|by apply IH].
  apply list.NoDup_cons. split; [|by apply IH].
  intros [[k' v'] [-> Hin]]%list_elem_of_fmap.
  apply list_elem_of_In, filter_In in Hin as [Hin _].
  apply Hnotin, list_elem_of_fmap. exists (k', v'). split; [done|].
  by apply list_elem_of_In.
Qed.

Lemma dict_get_filter_whitelisted k (d : JSONType) :
  dict_get k (List.filter whitelisted d) =
  if bool_decide (k ∈ get_fields) then dict_get k d else None.
Proof.
  induction d as [|[k' v'] d IH]; cbn [List.filter dict_get].
  - by destruct (bool_decide _).
  - unfold whitelisted at 1. cbn [fst].
    destruct (String.eqb k k') eqn:E.
    + apply String.eqb_eq in E as <-.
      destruct (bool_decide (k ∈ get_fields)) eqn:Hk; cbn [dict_get].
      * by rewrite String.eqb_refl.
      * done.
    + destruct (bool_decide (k' ∈ get_fields)); cbn [dict_get];
        by rewrite ?E, IH.
Qed.

Lemma minified_item_filter (item : JSONType) :
  NoDup (dict_keys item) → minified_item item = List.filter whitelisted item.
Proof.
  intros Hnodup. unfold minified_item.
  change (λ kv : string * value, bool_decide (kv.1 ∈ get_fields)) with whitelisted.
  by rewrite dict_of_pairs_NoDup by by apply dict_keys_filter_NoDup.
Qed.

Lemma filter_idempotent {A} (P : A → bool) (l : list A) :
  List.filter P (List.filter P l) = List.filter P l.
Proof.
  induction l as [|a l IH]; simpl; [done|].
  destruct (P a) eqn:E; simpl; by rewrite ?E, IH.
Qed.

(** X14. Minifying a record keeps its whitelisted entries, in their order
    and with their values, and drops the others; its keys stay distinct; and
    minifying a second time changes nothing. *)
Theorem minified_item_whitelist (item : JSONType) :
  NoDup (dict_keys item) →
  minified_item item = List.filter whitelisted item ∧
  NoDup (dict_keys (minified_item item)) ∧
  (∀ k, dict_get k (minified_item item) =
        if bool_decide (k ∈ get_fields) then dict_get k item else None) ∧
  minified_item (minified_item item) = minified_item item.
Proof.
  intros Hnodup.
  assert (NoDup (dict_keys (List.filter whitelisted item))) as Hnodup'
    by by apply dict_keys_filter_NoDup.
  rewrite minified_item_filter by done.
  split; [done|]. split; [done|]. split.
  - intros k. apply dict_get_filter_whitelisted.
  - rewrite minified_item_filter by done. apply filter_idempotent.
Qed.

Lemma minified_item_whitelist_witness :
  minified_item packaged_product =
  [("code", VStr "7"); ("lang", VStr "fr"); ("images", VDict [("1", VDict [])])].
Proof.
  destruct (minified_item_whitelist packaged_product) as [H _].
  - apply (bool_decide_unpack _). vm_compute. exact I.
  - rewrite H. reflexivity.
Defined.

Lemma get_minified_item (item : JSONType) k :
  NoDup (dict_keys item) →
  get (minified_item item) k =
  if bool_decide (k ∈ get_fields) then get item k else VNone.
Proof.
  intros Hnodup. unfold get.
  rewrite minified_item_filter, dict_get_filter_whitelisted by done.
  by destruct (bool_decide _).
Qed.

(** X15. The Record built from a minified record is the Record built from
    the raw record with its packagings emptied, for a raw record that has no
    [image_ids] key of its own: minification loses [packagings], which is not
    in the whitelist, and nothing else that a Record holds.  One raises when
    the other does. *)
Theorem Product_of_minified_item (item : JSONType) :
  NoDup (dict_keys item) →
  dict_contains "image_ids" item = false →
  Product_init (minified_item item) = without_packagings <$> Product_init item.
Proof.
  intros Hnodup Hids.
  assert (∀ k, get (minified_item item) k =
               if bool_decide (k ∈ get_fields) then get item k else VNone)
    as Hget by (intros k; by apply get_minified_item).
  assert (dict_contains "image_ids" (minified_item item) = false) as Hids'.
  { unfold dict_contains.
    by rewrite minified_item_filter, dict_get_filter_whitelisted by done. }
  unfold Product_init_by. rewrite Hids, Hids', !Hget.
  repeat match goal with
         | |- context [bool_decide (?k ∈ get_fields)] =>
             let b := eval vm_compute in (bool_decide (k ∈ get_fields)) in
             change (bool_decide (k ∈ get_fields)) with b
         end.
  cbv iota.
  by destruct (digit_keys (py_or (get item "images") (VDict []))).
Qed.

Lemma Product_of_minified_item_witness :
  packagings <$> Product_init packaged_product
  = Ok (VList [VDict [("shape", VStr "box")]]) ∧
  packagings <$> Product_init (minified_item packaged_product) = Ok (VList []) ∧
  lang <$> Product_init (minified_item packaged_product) = Ok (VStr "fr").
Proof.
  split; [reflexivity|].
  rewrite (Product_of_minified_item packaged_product).
  - split; reflexivity.
  - apply (bool_decide_unpack _). vm_compute. exact I.
  - reflexivity.
Defined.

(** ** Loading the snapshot store *)

Lemma fill_raises_at_bad_line build items products rest m :
  Forall2 (λ item product, build item = Ok product) items products →
  Forall (λ product,
            py_bool (barcode product) = true → is_Ok (py_hash (barcode product)))
         products →
  MemoryProductStore.fill
    (gen_map build (jsonl_lines ((Some <$> items) ++ None :: rest))) m
  = Raise DecodeError.
Proof.
  intros Hbuild. revert m.
  induction Hbuild as [|item product items products Hitem _ IH];
    intros m Hhash; csimpl; [done|].
  rewrite Hitem. apply Forall_cons_1 in Hhash as [Hp Hhash]. simpl.
  destruct (py_bool (barcode product)); [|by apply IH].
  destruct (Hp eq_refl) as [k ->]. simpl. by apply IH.
Qed.

(** X16. [load_from_path] fails without building a store: with
    [ValueError] when a projection list is given that does not name [code],
    whatever the file; with the reader's error when the file is missing; and
    with the decoding error when a line of the snapshot does not decode, even
    if all the records before it were indexed. *)
Theorem load_from_path_errors (w : world) (path : path) (projection : option (list string)) :
  (∀ fields, projection = Some fields → "code" ∉ fields →
     MemoryProductStore.load_from_path w path projection = Raise ValueError) ∧
  ((∀ fields, projection = Some fields → "code" ∈ fields) →
     read w path = None →
     MemoryProductStore.load_from_path w path projection = Raise OSError) ∧
  ((∀ fields, projection = Some fields → "code" ∈ fields) →
     ∀ items products rest,
       read w path = Some (Jsonl ((Some <$> items) ++ None :: rest)) →
       Forall2 (λ item product,
                  projected_item projection item ≫= Product_init = Ok product)
               items products →
       Forall (λ product,
                 py_bool (barcode product) = true →
                 is_Ok (py_hash (barcode product))) products →
       MemoryProductStore.load_from_path w path projection = Raise DecodeError).
Proof.
  assert ((∀ fields, projection = Some fields → "code" ∈ fields) →
          (match projection with
           | Some fields =>
               if bool_decide ("code" ∈ fields) then Ok () else Raise ValueError
           | None => Ok ()
           end) = Ok ()) as Hvalid.
  { intros Hcode. destruct projection as [fields|]; [|done].
    by rewrite bool_decide_eq_true_2 by auto. }
  unfold MemoryProductStore.load_from_path.
  split; [|split].
  - intros fields -> Hnotin. by rewrite bool_decide_eq_false_2.
  - intros Hcode Hread. rewrite Hvalid by done. simpl.
    rewrite ProductDataset_stream_read. unfold jsonl_iter. by rewrite Hread.
  - intros Hcode items products rest Hread Hbuild Hhash.
    rewrite Hvalid by done. simpl.
    rewrite ProductDataset_stream_read. unfold jsonl_iter, iter_product_by.
    rewrite Hread.
    by rewrite (fill_raises_at_bad_line _ items products).
Qed.

Lemma load_from_path_errors_witness :
  MemoryProductStore.load_from_path repeated_world
    (Abs "/data/products-min.jsonl.gz") (Some ["lang"; "images"])
  = Raise ValueError ∧
  MemoryProductStore.load_from_path repeated_world
    (Abs "/data/products.jsonl.gz") None
  = Raise OSError.
Proof.
  split.
  - apply (proj1 (load_from_path_errors repeated_world
                    (Abs "/data/products-min.jsonl.gz")
                    (Some ["lang"; "images"])) ["lang"; "images"]);
      [reflexivity|].
    apply (bool_decide_unpack _). vm_compute. exact I.
  - apply (proj1 (proj2 (load_from_path_errors repeated_world
                           (Abs "/data/products.jsonl.gz") None)));
      [discriminate|reflexivity].
Defined.

Lemma fill_sound (s : stream Product) (m m' : gmap hkey Product) :
  MemoryProductStore.fill s m = Ok m' →
  (∀ k p, m' !! k = Some p →
          m !! k = Some p ∨ (p ∈ yielded s ∧ key_of p = Some k)) ∧
  size m' ≤ size m + length (yielded s).
Proof.
  revert m. induction s as [|product s IH|e]; intros m; simpl.
  - intros [= <-]. split; [auto|lia].
  - destruct (py_bool (barcode product)) eqn:Hb.
    + destruct (py_hash (barcode product)) as [k0|e] eqn:Hk0; simpl; [|done].
      intros Hfill. destruct (IH _ Hfill) as [Hlook Hsize]. split.
      * intros k p Hkp. destruct (Hlook k p Hkp) as [Hm|[Hin Hkey]].
        -- destruct (decide (k0 = k)) as [->|Hne].
           ++ rewrite lookup_insert_eq in Hm. injection Hm as <-.
              right. split; [by left|]. unfold key_of. by rewrite Hb, Hk0.
           ++ rewrite lookup_insert_ne in Hm by done. by left.
        -- right. split; [by right|done].
      * rewrite map_size_insert in Hsize.
        destruct (m !! k0); simpl in Hsize; lia.
    + intros Hfill. destruct (IH _ Hfill) as [Hlook Hsize]. split.
      * intros k p Hkp. destruct (Hlook k p Hkp) as [Hm|[Hin Hkey]]; [by left|].
        right. split; [by right|done].
      * lia.
  - done.
Qed.

Lemma yielded_gen_map {A B} (f : A → except B) (s : stream A) :
  (∀ b, b ∈ yielded (gen_map f s) → ∃ a, a ∈ yielded s ∧ f a = Ok b) ∧
  length (yielded (gen_map f s)) ≤ length (yielded s).
Proof.
  induction s as [|a s [IH1 IH2]|e]; simpl.
  - split; [by intros b ?%elem_of_nil|done].
  - destruct (f a) as [b0|e] eqn:Hf; simpl.
    + split; [|lia]. intros b [->|Hin]%elem_of_cons.
      * exists a. split; [by left|done].
      * destruct (IH1 b Hin) as (a' & Hin' & Ha'). exists a'.
        split; [by right|done].
    + split; [by intros b ?%elem_of_nil|lia].
  - split; [by intros b ?%elem_of_nil|done].
Qed.

(** X17. Whatever the snapshot, a store that [load_from_path] returns holds
    nothing else than Records of the snapshot, each under the key of its own
    barcode; it has at most as many entries as the snapshot has records; a
    Record whose barcode is null, absent or empty is under no key. *)
Theorem load_from_path_sound (w : world) (path : path) projection
    (st : MemoryProductStore.t) :
  MemoryProductStore.load_from_path w path projection = Ok st →
  (∀ k product,
     MemoryProductStore.store st !! k = Some product →
     key_of product = Some k ∧
     py_bool (barcode product) = true ∧
     ∃ item,
       item ∈ yielded (ProductDataset.stream w path) ∧
       projected_item projection item ≫= Product_init = Ok product) ∧
  MemoryProductStore.len st ≤ length (yielded (ProductDataset.stream w path)).
Proof.
  unfold MemoryProductStore.load_from_path.
  destruct (match projection with
            | Some fields =>
                if bool_decide ("code" ∈ fields) then Ok () else Raise ValueError
            | None => Ok ()
            end); simpl; [|done].
  destruct (MemoryProductStore.fill _ ∅) as [m|e] eqn:Hfill; simpl; [|done].
  intros [= <-]. apply fill_sound in Hfill as [Hlook Hsize].
  unfold iter_product_by in *.
  destruct (yielded_gen_map
              (λ item, projected_item projection item ≫= Product_init)
              (ProductDataset.stream w path)) as [Hpre Hlen].
  split.
  - intros k product Hk. simpl in Hk.
    destruct (Hlook k product Hk) as [Hempty|[Hin Hkey]].
    + by rewrite lookup_empty in Hempty.
    + split; [done|]. split; [|by apply Hpre].
      by apply key_of_Some in Hkey as [? _].
  - unfold MemoryProductStore.len. simpl.
    rewrite map_size_empty in Hsize. lia.
Qed.

Lemma load_from_path_sound_witness :
  ∃ st,
    MemoryProductStore.load_from_path repeated_world
      (Abs "/data/products-min.jsonl.gz") (Some ["code"; "lang"]) = Ok st ∧
    MemoryProductStore.len st ≤ 4.
Proof.
  eexists. split; [reflexivity|].
  apply (load_from_path_sound repeated_world
           (Abs "/data/products-min.jsonl.gz") (Some ["code"; "lang"])).
  reflexivity.
Defined.

(** ** The refresh cycle, further *)

Lemma fetch_dataset_witness_response :
  http sample_world (JSONL_DATASET_URL sample_settings)
  = Ok {| ETag := Some "v2";
          raw := Jsonl (Some <$> [french_product; german_product]) |}.
Proof. reflexivity. Qed.

Lemma fetch_dataset_valid_download_witness :
  (fetch_dataset sample_settings true sample_world).1 = Ok true ∧
  files (fetch_dataset sample_settings true sample_world).2
    !! "/data/products-min.jsonl.gz"
  = Some (Jsonl [Some [("code", VStr "1"); ("countries_tags", VList [VStr "fr"]);
                       ("lang", VStr "fr")];
                 Some [("code", VStr "2"); ("countries_tags", VList [VStr "de"]);
                       ("lang", VStr "fr")]]).
Proof.
  destruct (fetch_dataset_valid_download sample_settings sample_world
              {| ETag := Some "v2";
                 raw := Jsonl (Some <$> [french_product; german_product]) |}
              [french_product; german_product])
    as (Hr & _ & Hf); [reflexivity|reflexivity|simpl; lia|].
  split; [exact Hr|]. rewrite Hf. reflexivity.
Defined.

(** X19. Without minification, a download that passes validation replaces
    the installed snapshot and the token and nothing else: the cycle makes the
    request, writes the temporary file, copies it onto the installed path and
    writes the token, and the installed minified snapshot stays as it was. *)
Theorem fetch_dataset_without_minify settings (w : world) response items :
  http w (JSONL_DATASET_URL settings) = Ok response →
  raw response = Jsonl (Some <$> items) →
  (DATASET_CHECK_MIN_PRODUCT_COUNT settings ≤ Z.of_nat (length items))%Z →
  let result := fetch_dataset settings false w in
  result.1 = Ok true ∧
  calls result.2 =
    calls w ++
    [ HttpGet (JSONL_DATASET_URL settings);
      OpenWrite (InTmp "products.jsonl.gz");
      ShutilCopy (InTmp "products.jsonl.gz") (Abs (JSONL_DATASET_PATH settings));
      OpenWrite (Abs (JSONL_DATASET_ETAG_PATH settings)) ] ∧
  files result.2 =
    <[JSONL_DATASET_ETAG_PATH settings :=
        Text (strip quotes (default "" (ETag response)))]>
      (<[JSONL_DATASET_PATH settings := Jsonl (Some <$> items)]> (files w)) ∧
  (JSONL_MIN_DATASET_PATH settings ≠ JSONL_DATASET_PATH settings →
   JSONL_MIN_DATASET_PATH settings ≠ JSONL_DATASET_ETAG_PATH settings →
   files result.2 !! JSONL_MIN_DATASET_PATH settings
   = files w !! JSONL_MIN_DATASET_PATH settings).
Proof.
  intros Hhttp Hraw Hmin result. subst result.
  unfold fetch_dataset, with_TemporaryDirectory, mbind, io_bind.
  rewrite (download_dataset_Ok _ _ _ response) by done.
  rewrite Hraw. unfold io_get.
  rewrite (is_valid_dataset_Jsonl _ _ _ (Some <$> items)) by apply read_write_eq.
  rewrite bool_decide_eq_true_2
    by (apply Forall_fmap, Forall_true; intros item; by eexists).
  rewrite length_fmap, (proj2 (Z.leb_le _ _) Hmin). cbn [andb negb].
  unfold mret, io_ret.
  rewrite (shutil_copy_Ok _ _ _ (Jsonl (Some <$> items)))
    by apply read_write_eq.
  unfold save_product_dataset_etag, io_modify. cbn [fst snd].
  split; [done|]. split; [|split].
  - cbn. by rewrite <- !(assoc_L (++)).
  - done.
  - intros Hne1 Hne2. cbn. by rewrite !lookup_insert_ne.
Qed.

Lemma fetch_dataset_without_minify_witness :
  (fetch_dataset sample_settings false sample_world).1 = Ok true ∧
  files (fetch_dataset sample_settings false sample_world).2
    !! "/data/products-min.jsonl.gz"
  = Some (Jsonl [Some bare_product]).
Proof.
  destruct (fetch_dataset_without_minify sample_settings sample_world
              {| ETag := Some "v2";
                 raw := Jsonl (Some <$> [french_product; german_product]) |}
              [french_product; german_product])
    as (Hr & _ & _ & Hmin); [reflexivity|reflexivity|simpl; lia|].
  split; [exact Hr|].
  etransitivity; [apply Hmin; discriminate|reflexivity].
Defined.

(** X20. When the download itself fails, [fetch_dataset] raises what the
    request raised; the installed files are as before, no temporary file is
    left, and the request is the only call made. *)
Theorem fetch_dataset_download_fails settings minify (w : world) (e : exn) :
  http w (JSONL_DATASET_URL settings) = Raise e →
  let result := fetch_dataset settings minify w in
  result.1 = Raise e ∧
  files result.2 = files w ∧
  tmpdir result.2 = ∅ ∧
  calls result.2 = calls w ++ [HttpGet (JSONL_DATASET_URL settings)].
Proof.
  intros Hhttp result. subst result.
  unfold fetch_dataset, with_TemporaryDirectory, mbind, io_bind, download_dataset.
  cbn [http set_tmpdir]. by rewrite Hhttp.
Qed.

Lemma fetch_dataset_download_fails_witness :
  (fetch_dataset sample_settings true unreachable_world).1 = Raise OSError ∧
  files (fetch_dataset sample_settings true unreachable_world).2 = installed_files.
Proof.
  destruct (fetch_dataset_download_fails sample_settings true unreachable_world
              OSError) as (Hr & Hf & _); [reflexivity|].
  split; [exact Hr|exact Hf].
Defined.

Lemma Forall_is_Some_fmap {A} (lines : list (option A)) :
  Forall is_Some lines ↔ ∃ items, lines = Some <$> items.
Proof.
  split.
  - induction 1 as [|line lines [item ->] _ [items ->]].
    + by exists [].
    + by exists (item :: items).
  - intros [items ->]. apply Forall_fmap, Forall_true. intros item. by eexists.
Qed.

(** X21. A dataset file is valid exactly when it is a snapshot all of whose
    lines decode and that has at least the configured minimum of records; a
    missing file, a file that is not a snapshot and a line that does not
    decode make it invalid rather than raising. *)
Theorem is_valid_dataset_iff settings (w : world) (dataset_path : path) :
  is_valid_dataset settings w dataset_path = true ↔
  ∃ items,
    read w dataset_path = Some (Jsonl (Some <$> items)) ∧
    (DATASET_CHECK_MIN_PRODUCT_COUNT settings ≤ Z.of_nat (length items))%Z.
Proof.
  destruct (read w dataset_path) as [[lines|text]|] eqn:Hread.
  - rewrite (is_valid_dataset_Jsonl _ _ _ lines Hread).
    rewrite andb_true_iff, bool_decide_eq_true, Z.leb_le, Forall_is_Some_fmap.
    split.
    + intros [[items ->] Hmin]. exists items.
      by rewrite length_fmap in Hmin.
    + intros (items & [= ->] & Hmin). rewrite length_fmap. eauto.
  - rewrite (is_valid_dataset_Text _ _ _ text Hread).
    split; [done|]. by intros (items & [=] & _).
  - unfold is_valid_dataset, ProductDataset.count.
    rewrite ProductDataset_stream_read. unfold jsonl_iter. rewrite Hread.
    split; [done|]. by intros (items & [=] & _).
Qed.

Lemma readline_one_line (s : string) : one_line s → readline s = s.
Proof.
  unfold one_line.
  induction s as [|c s IH]; simpl; [done|].
  intros [[Hlf Hnl]%not_elem_of_cons [Hcr Hnc]%not_elem_of_cons].
  fold newline carriage_return.
  destruct (Ascii.eqb c newline) eqn:E.
  { apply Ascii.eqb_eq in E. by destruct Hlf. }
  destruct (Ascii.eqb c carriage_return) eqn:E'.
  { apply Ascii.eqb_eq in E'. by destruct Hcr. }
  simpl. by rewrite IH.
Qed.

Lemma not_elem_of_list_ascii (c : Ascii.ascii) (s : string) :
  forallb (λ c', negb (Ascii.eqb c' c)) (String.list_ascii_of_string s) = true →
  c ∉ String.list_ascii_of_string s.
Proof.
  rewrite forallb_forall. intros Hall Hin.
  apply list_elem_of_In, Hall, negb_true_iff in Hin.
  by rewrite Ascii.eqb_refl in Hin.
Qed.

(** A carriage return ends the line as a line feed does, and is read as one. *)
Lemma readline_broken_token :
  readline broken_token = String (Ascii.ascii_of_nat 97) (String newline EmptyString).
Proof. reflexivity. Qed.

(** X22. What is read back of a saved token is its first line, the end of
    line (a line feed, a carriage return or both) read as a line feed; a
    token with neither a line feed nor a carriage return in it is read back
    as it was saved. *)
Theorem etag_saved_then_read settings (etag : string) (w : world) :
  let saved := (save_product_dataset_etag settings etag w).2 in
  get_product_dataset_etag settings saved = Ok (Some (readline etag)) ∧
  (one_line etag →
   get_product_dataset_etag settings saved = Ok (Some etag)).
Proof.
  cbv zeta. unfold save_product_dataset_etag, io_modify, get_product_dataset_etag.
  cbn. rewrite lookup_insert_eq.
  split; [done|]. intros Hnl. by rewrite readline_one_line.
Qed.

Lemma etag_saved_then_read_witness :
  one_line "v3" ∧
  get_product_dataset_etag sample_settings
    (save_product_dataset_etag sample_settings "v3" sample_world).2
  = Ok (Some "v3").
Proof.
  assert (one_line "v3") as Hline
    by (split; apply not_elem_of_list_ascii; reflexivity).
  split; [exact Hline|].
  exact (proj2 (etag_saved_then_read sample_settings "v3" sample_world) Hline).
Defined.

Lemma http_write p c w : http (write p c w) = http w.
Proof. by destruct p. Qed.

Lemma fetch_dataset_valid_token settings minify (w : world) response items :
  http w (JSONL_DATASET_URL settings) = Ok response →
  raw response = Jsonl (Some <$> items) →
  (DATASET_CHECK_MIN_PRODUCT_COUNT settings ≤ Z.of_nat (length items))%Z →
  let result := fetch_dataset settings minify w in
  result.1 = Ok true ∧
  http result.2 = http w ∧
  files result.2 !! JSONL_DATASET_ETAG_PATH settings
  = Some (Text (strip quotes (default "" (ETag response)))).
Proof.
  intros Hhttp Hraw Hmin result. subst result.
  unfold fetch_dataset, with_TemporaryDirectory, mbind, io_bind.
  rewrite (download_dataset_Ok _ _ _ response) by done.
  rewrite Hraw. unfold io_get.
  rewrite (is_valid_dataset_Jsonl _ _ _ (Some <$> items)) by apply read_write_eq.
  rewrite bool_decide_eq_true_2
    by (apply Forall_fmap, Forall_true; intros item; by eexists).
  rewrite length_fmap, (proj2 (Z.leb_le _ _) Hmin). cbn [andb negb].
  destruct minify.
  - rewrite (minify_product_dataset_Ok _ _ _ items)
      by (done || apply read_write_eq).
    rewrite (shutil_copy_Ok _ _ _ (Jsonl (Some <$> items)))
      by (rewrite !read_write_ne, read_record_call by done; apply read_write_eq).
    rewrite (shutil_copy_Ok _ _ _ (Jsonl (Some <$> (minified_item <$> items))))
      by (rewrite read_write_ne, read_record_call by done; apply read_write_eq).
    unfold save_product_dataset_etag, io_modify. cbn [fst snd].
    split; [done|]. split; [done|]. cbn. apply lookup_insert_eq.
  - unfold mret, io_ret.
    rewrite (shutil_copy_Ok _ _ _ (Jsonl (Some <$> items)))
      by apply read_write_eq.
    unfold save_product_dataset_etag, io_modify. cbn [fst snd].
    split; [done|]. split; [done|]. cbn. apply lookup_insert_eq.
Qed.

(** X23. After a cycle that installed a download, [has_dataset_changed]
    answers [False] as long as the server still sends the same ETag, when the
    ETag, its quotes stripped, has neither a line feed nor a carriage return
    in it: the token that was stored is then the one the next check compares
    with. *)
Theorem has_dataset_changed_after_fetch settings minify (w : world) response items :
  http w (JSONL_DATASET_URL settings) = Ok response →
  raw response = Jsonl (Some <$> items) →
  (DATASET_CHECK_MIN_PRODUCT_COUNT settings ≤ Z.of_nat (length items))%Z →
  one_line (strip quotes (default "" (ETag response))) →
  has_dataset_changed settings (fetch_dataset settings minify w).2 = Ok false.
Proof.
  intros Hhttp Hraw Hmin Hnl.
  destruct (fetch_dataset_valid_token settings minify w response items
              Hhttp Hraw Hmin) as (_ & Hsame & Htoken).
  unfold has_dataset_changed, get_product_dataset_etag.
  rewrite Htoken, Hsame. simpl. rewrite Hhttp. simpl.
  rewrite readline_one_line by done.
  by rewrite String.eqb_refl.
Qed.

Lemma has_dataset_changed_after_fetch_witness :
  has_dataset_changed sample_settings sample_world = Ok true ∧
  has_dataset_changed sample_settings
    (fetch_dataset sample_settings true sample_world).2 = Ok false.
Proof.
  split; [reflexivity|].
  apply (has_dataset_changed_after_fetch sample_settings true sample_world
           {| ETag := Some "v2";
              raw := Jsonl (Some <$> [french_product; german_product]) |}
           [french_product; german_product]);
    [reflexivity|reflexivity|simpl; lia|].
  split; apply not_elem_of_list_ascii; reflexivity.
Defined.

(** ** Records from a stream *)

Lemma to_list_of_list {A} (l : list A) : to_list (stream_of_list l) = Ok l.
Proof. induction l as [|a l IH]; simpl; [done|]. by rewrite IH. Qed.

Lemma to_list_gen_map {A B} (f : A → except B) (s : stream A) results :
  to_list (gen_map f s) = Ok results →
  ∃ items, to_list s = Ok items ∧ Forall2 (λ a b, f a = Ok b) items results.
Proof.
  revert results. induction s as [|a s IH|e]; simpl; intros results.
  - intros [= <-]. by exists [].
  - destruct (f a) as [b|e] eqn:Hf; simpl; [|done].
    destruct (to_list (gen_map f s)) as [bs|e] eqn:Hbs; simpl; [|done].
    intros [= <-]. destruct (IH bs eq_refl) as (items & -> & Hall).
    exists (a :: items). split; [done|]. by constructor.
  - done.
Qed.

(** X24. [iter_product] runs to its end exactly when its source does and
    every raw record gives a Record; it then has produced one Record for each
    raw record, in the order of the source. *)
Theorem iter_product_one_per_record (self : ProductStream) projection
    (products : list Product) :
  to_list (iter_product self projection) = Ok products ↔
  ∃ items,
    ProductStream.collect self = Ok items ∧
    Forall2 (λ item product,
               projected_item projection item ≫= Product_init = Ok product)
            items products.
Proof.
  unfold iter_product_by, ProductStream.collect. split.
  - apply to_list_gen_map.
  - intros (items & Hitems & Hall).
    rewrite (to_list_stream_of_list _ _ Hitems).
    rewrite (gen_map_stream_of_list _ _ _ Hall).
    apply to_list_of_list.
Qed.

(** X25. With a projection list, the record from which the Record is built
    has, under every key other than [image_ids], the value of the raw record
    when the key is listed and nothing when it is not; it has an [image_ids]
    key exactly when [image_ids] is listed. *)
Theorem projected_item_keys (item projected : JSONType) f (fields : list string) :
  projected_item (Some (f :: fields)) item = Ok projected →
  (∀ k, k ≠ "image_ids" →
        dict_get k projected =
        if bool_decide (k ∈ f :: fields) then dict_get k item else None) ∧
  dict_contains "image_ids" projected = bool_decide ("image_ids" ∈ f :: fields).
Proof.
  unfold projected_item_by.
  destruct (bool_decide ("image_ids" ∈ f :: fields)) eqn:Hin.
  - destruct (digit_keys _) as [ids|e]; simpl; [|done].
    intros [= <-]. split.
    + intros k Hk. rewrite dict_get_set_ne by done.
      apply dict_get_project_keys.
    + unfold dict_contains. by rewrite dict_get_set_eq.
  - intros [= <-]. split.
    + intros k _. apply dict_get_project_keys.
    + unfold dict_contains. by rewrite dict_get_project_keys, Hin.
Qed.

Lemma projected_item_keys_witness :
  ∃ projected,
    projected_item (Some ["code"; "lang"]) french_product = Ok projected ∧
    dict_get "countries_tags" projected = None ∧
    dict_get "lang" projected = Some (VStr "fr").
Proof.
  eexists. split; [reflexivity|].
  destruct (projected_item_keys french_product _ "code" ["lang"] eq_refl)
    as [Hget _].
  split; rewrite Hget by discriminate; reflexivity.
Defined.

(** ** The live store, further *)

Lemma find_app_first {A} (f : A → bool) (before after : list A) (x : A) :
  Forall (λ y, f y = false) before → f x = true →
  List.find f (before ++ x :: after) = Some x.
Proof.
  induction 1 as [|y before Hy _ IH]; simpl; intros Hx.
  - by rewrite Hx.
  - rewrite Hy. by apply IH.
Qed.

(** X26. With remote access enabled, looking up an identifier that a
    document of the collection carries as its [_id] makes one query and
    returns the Record built from the first such document. *)
Theorem DBProductStore_lookup_present settings self product_id (w : world)
    (before after : list JSONType) (doc : JSONType) (product : Product) :
  ENABLE_MONGODB_ACCESS settings = true →
  mongo w !! DBProductStore.db_name self = Some (before ++ doc :: after) →
  Forall (λ other, get other "_id" ≠ VStr (ProductIdentifier.barcode product_id))
         before →
  get doc "_id" = VStr (ProductIdentifier.barcode product_id) →
  Product_init doc = Ok product →
  DBProductStore.getitem settings self product_id w =
  (Ok (Some product),
   record_call (MongoFindOne (DBProductStore.db_name self)
                             (ProductIdentifier.barcode product_id)) w).
Proof.
  intros Hon Hdocs Hbefore Hid Hinit.
  destruct doc as [|entry doc]; [discriminate Hid|].
  unfold DBProductStore.getitem, DBProductStore.get_product.
  rewrite Hon. simpl. unfold mbind, io_bind, find_one.
  rewrite Hdocs. simpl.
  rewrite (find_app_first _ before after (entry :: doc)).
  - cbn -[Product_init_by]. unfold io_lift. by rewrite Hinit.
  - eapply List.Forall_impl; [|exact Hbefore].
    intros other Hne. simpl in Hne.
    destruct (py_eq _ _) eqn:E; [|done]. by apply py_eq_VStr in E.
  - rewrite Hid. simpl. apply String.eqb_refl.
Qed.

Lemma DBProductStore_lookup_present_witness :
  ∃ product,
    DBProductStore.getitem sample_settings off_store
      {| ProductIdentifier.barcode := "1";
         ProductIdentifier.server_type := {| ServerType_value := "off" |} |}
      sample_world
    = (Ok (Some product), record_call (MongoFindOne "off" "1") sample_world) ∧
    barcode product = VStr "1".
Proof.
  eexists. split.
  - apply (DBProductStore_lookup_present sample_settings off_store
             {| ProductIdentifier.barcode := "1";
                ProductIdentifier.server_type := {| ServerType_value := "off" |} |}
             sample_world [] [] [("_id", VStr "1"); ("code", VStr "1")]);
      [reflexivity|reflexivity|constructor|reflexivity|reflexivity].
  - reflexivity.
Defined.
